(** * Apex-Timer: the entity store and the study statistics aggregator

    A shallow embedding of [server/routes.ts], [shared/schema.ts] and
    [server/storage.ts].

    Conventions of the embedding:
    - a JavaScript [number] that holds an id, a duration or a counter is an
      integer of [Z]; a [Date] is its [getTime()] value, milliseconds since
      the epoch, also in [Z]. A [number] is a double, so an addition of [Z]
      is the addition of the code as long as its operands and its result
      are safe integers ([Js.safeInteger]). The [integer] columns of the
      database are [int4] ([Js.int4]);
    - [T | null] is [option T]; a key of a [Partial<...>] object is [None]
      when the key is missing and [Some v] when it is supplied, so a
      nullable column of a partial object is [option (option T)];
    - [Record<string, number>] is [gmap string Js.value], the own
      properties of the object; reading a key also finds the members that
      every object inherits from [Object.prototype] ([Js.inheritedNames]);
    - [Map<number, V>] is an association list in insertion order, as
      [Array.from(map.values())] enumerates it;
    - every storage method takes the reading [now] of the clock that its
      [new Date()] calls see, and the time zone [tz] of the process, which
      is what [setHours] and [setDate] compute in it ([Date.zone]);
    - the object spread [{...a, ...b}] is a per-field merge. *)

From stdpp Require Import gmap strings list fin_maps.
From Stdlib Require Import ZArith Lia Sorting.Sorted Sorting.Permutation.

Local Open Scope Z_scope.

(** ** JavaScript primitives *)

Module Js.

(** [if (c)] for a string [c]: every string but the empty one. *)
Definition truthyString (c : string) : bool := negb (String.eqb c "").

(** [x || d] for a number [x]. *)
Definition orNum (x d : Z) : Z := if x =? 0 then d else x.

(** [o || d] for [o : number | null | undefined]. *)
Definition orNumOpt (o : option Z) (d : Z) : Z :=
  match o with
  | Some x => orNum x d
  | None => d
  end.

(** One key of [{...a, ...b}]: the value of [b] when [b] has the key. *)
Definition spread {A : Type} (a : A) (b : option A) : A :=
  match b with
  | Some v => v
  | None => a
  end.

(** What an object typed [Record<string, number>] holds under a key: a
    number, or the string that [+] builds once its left operand is not a
    number: the string form of the inherited member [member], followed by
    the decimal forms of the numbers [appended]. *)
Inductive value : Type :=
| Num (n : Z)
| Text (member : string) (appended : list Z).

(** The names of the members of [Object.prototype]. *)
Definition inheritedNames : list string :=
  ["constructor"; "__defineGetter__"; "__defineSetter__"; "hasOwnProperty";
   "__lookupGetter__"; "__lookupSetter__"; "isPrototypeOf";
   "propertyIsEnumerable"; "toString"; "valueOf"; "__proto__";
   "toLocaleString"].

Definition isInherited (key : string) : bool :=
  existsb (String.eqb key) inheritedNames.

(** [(o[key] || 0) + seconds] on a plain object [o]. An own key is read
    first; a key that is not own but names a member of [Object.prototype]
    reads that member, an object or a function, which is truthy and turns
    [+] into a concatenation; any other key reads [undefined]. *)
Definition addTo (o : gmap string value) (key : string) (seconds : Z)
    : value :=
  match o !! key with
  | Some (Num n) => Num (orNum n 0 + seconds)
  | Some (Text member appended) => Text member (appended ++ [seconds])
  | None =>
      if isInherited key then Text key [seconds] else Num (0 + seconds)
  end.

(** [Number.isSafeInteger]: the integers on which the sums of doubles are
    the sums of integers. *)
Definition safeInteger (n : Z) : Prop :=
  - 9007199254740991 ≤ n ≤ 9007199254740991.

(** The values of a column of type [integer]. *)
Definition int4 (n : Z) : bool :=
  (-2147483648 <=? n) && (n <=? 2147483647).

(** The outcome of an [async] method: a value or a thrown [Error]. *)
Inductive outcome (A : Type) : Type :=
| Returned (a : A)
| Thrown (msg : string).
Arguments Returned {A} a.
Arguments Thrown {A} msg.

End Js.

(** ** Dates *)

Module Date.

Definition msPerDay : Z := 86400000.

(** The time zone of the process, by what the two setters of the code
    compute in it. [setHours0 t] is the time value of a [Date] at [t] after
    [setHours(0, 0, 0, 0)]: the local midnight of the calendar day of [t].
    [setDatePrev t] is its time value after [setDate(getDate() - 1)]: the
    same local time on the calendar day before. Both follow the rules of
    the zone, daylight saving included. *)
Record zone := mkZone {
  setHours0 : Z → Z;
  setDatePrev : Z → Z
}.

(** A zone at a constant offset from UTC, in milliseconds: every calendar
    day has 24 hours. *)
Definition fixedOffset (offset : Z) : zone :=
  mkZone (λ t, (t + offset) / msPerDay * msPerDay - offset)
         (λ t, t - msPerDay).

Definition utc : zone := fixedOffset 0.

End Date.

(** ** A [Map<number, V>] in insertion order *)

Module JsMap.

Section Ops.
Context {V : Type}.

Fixpoint get (k : Z) (m : list (Z * V)) : option V :=
  match m with
  | [] => None
  | (k', v) :: m' => if k =? k' then Some v else get k m'
  end.

(** [set] keeps the position of a key that is already there. *)
Fixpoint set (k : Z) (v : V) (m : list (Z * V)) : list (Z * V) :=
  match m with
  | [] => [(k, v)]
  | (k', v') :: m' =>
      if k =? k' then (k, v) :: m' else (k', v') :: set k v m'
  end.

Fixpoint remove (k : Z) (m : list (Z * V)) : list (Z * V) :=
  match m with
  | [] => []
  | (k', v') :: m' =>
      if k =? k' then m' else (k', v') :: remove k m'
  end.

(** [map.delete(k)]: whether the key was there, and the map without it. *)
Definition delete (k : Z) (m : list (Z * V)) : bool * list (Z * V) :=
  (bool_decide (is_Some (get k m)), remove k m).

Definition values (m : list (Z * V)) : list V := map snd m.
End Ops.

End JsMap.

(** [Array.prototype.sort(cmp)]: a stable sort; [cmp a b > 0] puts [b]
    before [a]. *)
Section JsSort.
Context {A : Type} (cmp : A → A → Z).

Fixpoint sortInsert (x : A) (l : list A) : list A :=
  match l with
  | [] => [x]
  | y :: l' => if 0 <? cmp x y then y :: sortInsert x l' else x :: y :: l'
  end.

Fixpoint jsSort (l : list A) : list A :=
  match l with
  | [] => []
  | x :: l' => sortInsert x (jsSort l')
  end.
End JsSort.

(** The comparator of the [sort] calls, [(a, b) => key(b) - key(a)], and
    the order it sorts into: larger keys first. *)
Definition keyDesc {A : Type} (key : A → Z) (a b : A) : Z := key b - key a.

Definition newestFirst {A : Type} (key : A → Z) (a b : A) : Prop :=
  key b ≤ key a.

(** ** The schema *)

Module Task.
Record t := mk {
  id : Z;
  text : string;
  completed : bool;
  dueDate : option Z;
  createdAt : Z
}.
End Task.

(** [InsertTask]. *)
Module InsertTask.
Record t := mk {
  text : string;
  completed : option bool;
  dueDate : option (option Z)
}.
End InsertTask.

(** [Partial<InsertTask>]. *)
Module PartialTask.
Record t := mk {
  text : option string;
  completed : option bool;
  dueDate : option (option Z)
}.

Definition empty : t := mk None None None.

(** [{...task, ...updateData}]. *)
Definition merge (task : Task.t) (p : t) : Task.t :=
  Task.mk (Task.id task)
          (Js.spread (Task.text task) (text p))
          (Js.spread (Task.completed task) (completed p))
          (Js.spread (Task.dueDate task) (dueDate p))
          (Task.createdAt task).
End PartialTask.

Module StudySession.
Record t := mk {
  id : Z;
  userId : option Z;
  startTime : Z;
  endTime : option Z;
  duration : option Z;
  timerType : string;
  tags : option (list string);
  notes : option string;
  completed : bool
}.
End StudySession.

(** [InsertStudySession]. *)
Module InsertStudySession.
Record t := mk {
  userId : option (option Z);
  startTime : option Z;
  endTime : option (option Z);
  duration : option (option Z);
  timerType : string;
  tags : option (option (list string));
  notes : option (option string);
  completed : option bool
}.
End InsertStudySession.

(** [Partial<InsertStudySession>]. *)
Module PartialStudySession.
Record t := mk {
  userId : option (option Z);
  startTime : option Z;
  endTime : option (option Z);
  duration : option (option Z);
  timerType : option string;
  tags : option (option (list string));
  notes : option (option string);
  completed : option bool
}.

Definition empty : t := mk None None None None None None None None.

(** [{...session, ...sessionData}]. *)
Definition merge (s : StudySession.t) (p : t) : StudySession.t :=
  StudySession.mk (StudySession.id s)
                  (Js.spread (StudySession.userId s) (userId p))
                  (Js.spread (StudySession.startTime s) (startTime p))
                  (Js.spread (StudySession.endTime s) (endTime p))
                  (Js.spread (StudySession.duration s) (duration p))
                  (Js.spread (StudySession.timerType s) (timerType p))
                  (Js.spread (StudySession.tags s) (tags p))
                  (Js.spread (StudySession.notes s) (notes p))
                  (Js.spread (StudySession.completed s) (completed p)).
End PartialStudySession.

Module StudyStats.
Record t := mk {
  id : Z;
  userId : option Z;
  totalStudyTime : Z;
  dailyGoal : Z;
  weeklyGoal : Z;
  streakDays : Z;
  lastStudyDate : option Z;
  timeByCategory : option (gmap string Js.value)
}.

(** The mapping a [timeByCategory] column stands for: [null] has no key. *)
Definition categories (s : t) : gmap string Js.value :=
  default ∅ (timeByCategory s).
End StudyStats.

(** [Partial<InsertStudyStats>]. *)
Module PartialStudyStats.
Record t := mk {
  userId : option (option Z);
  totalStudyTime : option Z;
  dailyGoal : option Z;
  weeklyGoal : option Z;
  streakDays : option Z;
  lastStudyDate : option (option Z);
  timeByCategory : option (option (gmap string Js.value))
}.

Definition empty : t := mk None None None None None None None.

(** [{...stats, ...p}]. *)
Definition merge (s : StudyStats.t) (p : t) : StudyStats.t :=
  StudyStats.mk (StudyStats.id s)
                (Js.spread (StudyStats.userId s) (userId p))
                (Js.spread (StudyStats.totalStudyTime s) (totalStudyTime p))
                (Js.spread (StudyStats.dailyGoal s) (dailyGoal p))
                (Js.spread (StudyStats.weeklyGoal s) (weeklyGoal p))
                (Js.spread (StudyStats.streakDays s) (streakDays p))
                (Js.spread (StudyStats.lastStudyDate s) (lastStudyDate p))
                (Js.spread (StudyStats.timeByCategory s) (timeByCategory p)).
End PartialStudyStats.


(** [TimerSettings] as the objects of [MemStorage] carry it. A key that an
    object literal leaves out reads as [undefined]: for [backgroundImage]
    and [useCustomBackground] the outer [None] is that missing key. *)
Module TimerSettings.
Record t := mk {
  id : Z;
  userId : option Z;
  defaultMinutes : Z;
  defaultSeconds : Z;
  alarmSound : string;
  volume : Z;
  autoStartBreak : bool;
  timerMode : string;
  pomodoroMinutes : Z;
  shortBreakMinutes : Z;
  longBreakMinutes : Z;
  longBreakInterval : Z;
  autoStartPomodoro : bool;
  trackStopwatchTime : bool;
  stopwatchDefaultCategory : option string;
  stopwatchAutoSave : bool;
  backgroundImage : option (option string);
  useCustomBackground : option bool
}.

(** What the table [timer_settings] fills in for the two columns. *)
Definition schemaBackgroundImage : option string := None.
Definition schemaUseCustomBackground : bool := false.
End TimerSettings.

(** [Partial<InsertTimerSettings>]. *)
Module PartialTimerSettings.
Record t := mk {
  userId : option (option Z);
  defaultMinutes : option Z;
  defaultSeconds : option Z;
  alarmSound : option string;
  volume : option Z;
  autoStartBreak : option bool;
  timerMode : option string;
  pomodoroMinutes : option Z;
  shortBreakMinutes : option Z;
  longBreakMinutes : option Z;
  longBreakInterval : option Z;
  autoStartPomodoro : option bool;
  trackStopwatchTime : option bool;
  stopwatchDefaultCategory : option (option string);
  stopwatchAutoSave : option bool;
  backgroundImage : option (option string);
  useCustomBackground : option bool
}.

Definition empty : t :=
  mk None None None None None None None None None None None None None None
     None None None.

(** One key of [{...a, ...b}] where [a] may lack the key. *)
Definition spreadKey {A : Type} (a b : option A) : option A :=
  match b with
  | Some v => Some v
  | None => a
  end.

(** [{...settings, ...p}]. *)
Definition merge (s : TimerSettings.t) (p : t) : TimerSettings.t :=
  TimerSettings.mk
    (TimerSettings.id s)
    (Js.spread (TimerSettings.userId s) (userId p))
    (Js.spread (TimerSettings.defaultMinutes s) (defaultMinutes p))
    (Js.spread (TimerSettings.defaultSeconds s) (defaultSeconds p))
    (Js.spread (TimerSettings.alarmSound s) (alarmSound p))
    (Js.spread (TimerSettings.volume s) (volume p))
    (Js.spread (TimerSettings.autoStartBreak s) (autoStartBreak p))
    (Js.spread (TimerSettings.timerMode s) (timerMode p))
    (Js.spread (TimerSettings.pomodoroMinutes s) (pomodoroMinutes p))
    (Js.spread (TimerSettings.shortBreakMinutes s) (shortBreakMinutes p))
    (Js.spread (TimerSettings.longBreakMinutes s) (longBreakMinutes p))
    (Js.spread (TimerSettings.longBreakInterval s) (longBreakInterval p))
    (Js.spread (TimerSettings.autoStartPomodoro s) (autoStartPomodoro p))
    (Js.spread (TimerSettings.trackStopwatchTime s) (trackStopwatchTime p))
    (Js.spread (TimerSettings.stopwatchDefaultCategory s)
               (stopwatchDefaultCategory p))
    (Js.spread (TimerSettings.stopwatchAutoSave s) (stopwatchAutoSave p))
    (spreadKey (TimerSettings.backgroundImage s) (backgroundImage p))
    (spreadKey (TimerSettings.useCustomBackground s) (useCustomBackground p)).
End PartialTimerSettings.

(** ** The streak and category rules shared by both stores

    The two [increaseStudyTime] methods repeat the same statements for the
    midnights and for [timeByCategory]; they are written once here and
    each method keeps its own branching on [lastStudyDate]. *)

Module Aggregator.
Section Zone.
Variable tz : Date.zone.

(** [today]: [new Date()] with [setHours(0, 0, 0, 0)]. *)
Definition today (now : Z) : Z := Date.setHours0 tz now.

(** [yesterday]: a copy of [today] with [setDate(getDate() - 1)]. *)
Definition yesterday (now : Z) : Z := Date.setDatePrev tz (today now).

(** The body of [if (lastStudyDate) { ... }]: [lastStudyDay] against
    [yesterday]. *)
Definition streakAfter (now last streakDays : Z) : Z :=
  let lastStudyDay := Date.setHours0 tz last in
  if lastStudyDay =? yesterday now then streakDays + 1
  else if lastStudyDay <? yesterday now then 1
  else streakDays.
End Zone.

(** [timeByCategory || {}], then the update under [if (category)]. *)
Definition creditCategory (stored : option (gmap string Js.value))
    (seconds : Z) (category : option string) : gmap string Js.value :=
  let timeByCategory := default ∅ stored in
  match category with
  | Some c =>
      if Js.truthyString c
      then <[c := Js.addTo timeByCategory c seconds]> timeByCategory
      else timeByCategory
  | None => timeByCategory
  end.
End Aggregator.

(** ** [MemStorage] *)

Module MemStorage.

(** The fields of the class; [users] and [userId] serve no operation
    modelled here and are left out. *)
Record t := mk {
  tasksMap : list (Z * Task.t);
  timerSettingsInstance : option TimerSettings.t;
  studySessionsMap : list (Z * StudySession.t);
  studyStatsInstance : option StudyStats.t;
  taskId : Z;
  sessionId : Z
}.

(** The object literal of the constructor and of [updateTimerSettings]:
    sixteen keys, without [backgroundImage] and [useCustomBackground]. *)
Definition defaultSettings : TimerSettings.t :=
  TimerSettings.mk 1 None 25 0 "bell" 80 false "pomodoro" 25 5 15 4 false
                   true (Some "General") false None None.

(** The object literal of the constructor and of [updateStudyStats]. *)
Definition defaultStats : StudyStats.t :=
  StudyStats.mk 1 None 0 7200 36000 0 None (Some ∅).

Definition constructor : t :=
  mk [] (Some defaultSettings) [] (Some defaultStats) 1 1.

Definition withTasks (st : t) (m : list (Z * Task.t)) (next : Z) : t :=
  mk m (timerSettingsInstance st) (studySessionsMap st)
     (studyStatsInstance st) next (sessionId st).

Definition withSessions (st : t) (m : list (Z * StudySession.t))
    (next : Z) : t :=
  mk (tasksMap st) (timerSettingsInstance st) m (studyStatsInstance st)
     (taskId st) next.

Definition withSettings (st : t) (s : TimerSettings.t) : t :=
  mk (tasksMap st) (Some s) (studySessionsMap st) (studyStatsInstance st)
     (taskId st) (sessionId st).

Definition withStats (st : t) (s : StudyStats.t) : t :=
  mk (tasksMap st) (timerSettingsInstance st) (studySessionsMap st) (Some s)
     (taskId st) (sessionId st).

(** *** Tasks *)

Definition cmpCreatedAt : Task.t → Task.t → Z := keyDesc Task.createdAt.

Definition getTasks (st : t) : list Task.t :=
  jsSort cmpCreatedAt (JsMap.values (tasksMap st)).

Definition getTask (id : Z) (st : t) : option Task.t :=
  JsMap.get id (tasksMap st).

Definition createTask (now : Z) (insertTask : InsertTask.t) (st : t)
    : Task.t * t :=
  let id := taskId st in
  let task :=
    Task.mk id (InsertTask.text insertTask)
            (default false (InsertTask.completed insertTask))
            (default None (InsertTask.dueDate insertTask))
            now in
  (task, withTasks st (JsMap.set id task (tasksMap st)) (id + 1)).

Definition updateTask (id : Z) (updateData : PartialTask.t) (st : t)
    : option Task.t * t :=
  match JsMap.get id (tasksMap st) with
  | None => (None, st)
  | Some task =>
      let updatedTask := PartialTask.merge task updateData in
      (Some updatedTask,
       withTasks st (JsMap.set id updatedTask (tasksMap st)) (taskId st))
  end.

Definition deleteTask (id : Z) (st : t) : bool * t :=
  let (found, m) := JsMap.delete id (tasksMap st) in
  (found, withTasks st m (taskId st)).

(** *** Timer settings *)

Definition getTimerSettings (st : t) : option TimerSettings.t :=
  timerSettingsInstance st.

Definition updateTimerSettings (settings : PartialTimerSettings.t) (st : t)
    : TimerSettings.t * t :=
  let updated :=
    match timerSettingsInstance st with
    | None => PartialTimerSettings.merge defaultSettings settings
    | Some current => PartialTimerSettings.merge current settings
    end in
  (updated, withSettings st updated).

(** *** Study sessions *)

Definition cmpStartTime : StudySession.t → StudySession.t → Z :=
  keyDesc StudySession.startTime.

Definition getStudySessions (st : t) : list StudySession.t :=
  jsSort cmpStartTime (JsMap.values (studySessionsMap st)).

Definition getStudySession (id : Z) (st : t) : option StudySession.t :=
  JsMap.get id (studySessionsMap st).

(** [x || d] for [x : T[] | null | undefined]: an array is truthy. *)
Definition orTags (o : option (option (list string))) : list string :=
  match o with
  | Some (Some l) => l
  | _ => []
  end.

Definition createStudySession (now : Z) (session : InsertStudySession.t)
    (st : t) : StudySession.t * t :=
  let id := sessionId st in
  let studySession :=
    StudySession.mk
      id
      (default None (InsertStudySession.userId session))
      (default now (InsertStudySession.startTime session))
      (default None (InsertStudySession.endTime session))
      (Some (Js.orNumOpt (default None (InsertStudySession.duration session)) 0))
      (if Js.truthyString (InsertStudySession.timerType session)
       then InsertStudySession.timerType session else "pomodoro")
      (Some (orTags (InsertStudySession.tags session)))
      (default None (InsertStudySession.notes session))
      (default false (InsertStudySession.completed session)) in
  (studySession,
   withSessions st (JsMap.set id studySession (studySessionsMap st)) (id + 1)).

Definition updateStudySession (id : Z) (sessionData : PartialStudySession.t)
    (st : t) : option StudySession.t * t :=
  match JsMap.get id (studySessionsMap st) with
  | None => (None, st)
  | Some session =>
      let updatedSession := PartialStudySession.merge session sessionData in
      (Some updatedSession,
       withSessions st (JsMap.set id updatedSession (studySessionsMap st))
                    (sessionId st))
  end.

Definition deleteStudySession (id : Z) (st : t) : bool * t :=
  let (found, m) := JsMap.delete id (studySessionsMap st) in
  (found, withSessions st m (sessionId st)).

(** The predicate of the [filter] of [getStudySessionsByDateRange]. *)
Definition inRange (startDate endDate : Z) (session : StudySession.t) : bool :=
  let sessionDate := StudySession.startTime session in
  (startDate <=? sessionDate) && (sessionDate <=? endDate).

Definition getStudySessionsByDateRange (startDate endDate : Z) (st : t)
    : list StudySession.t :=
  let sessions := JsMap.values (studySessionsMap st) in
  jsSort cmpStartTime (List.filter (inRange startDate endDate) sessions).

(** *** Study stats *)

Definition getStudyStats (st : t) : option StudyStats.t :=
  studyStatsInstance st.

Definition updateStudyStats (stats : PartialStudyStats.t) (st : t)
    : StudyStats.t * t :=
  let updated :=
    match studyStatsInstance st with
    | None => PartialStudyStats.merge defaultStats stats
    | Some current => PartialStudyStats.merge current stats
    end in
  (updated, withStats st updated).

Section Zone.
Variable tz : Date.zone.

Definition increaseStudyTime (now seconds : Z) (category : option string)
    (st : t) : Js.outcome (StudyStats.t * t) :=
  let st1 :=
    match studyStatsInstance st with
    | None => snd (updateStudyStats PartialStudyStats.empty st)
    | Some _ => st
    end in
  match studyStatsInstance st1 with
  | None => Js.Thrown "Failed to initialize study stats"
  | Some current =>
      let streakDays0 := Js.orNum (StudyStats.streakDays current) 0 in
      let streakDays :=
        match StudyStats.lastStudyDate current with
        | Some lastStudyDate =>
            Aggregator.streakAfter tz now lastStudyDate streakDays0
        | None => 1
        end in
      let timeByCategory :=
        Aggregator.creditCategory (StudyStats.timeByCategory current)
                                  seconds category in
      let totalStudyTime :=
        Js.orNum (StudyStats.totalStudyTime current) 0 + seconds in
      let updated :=
        StudyStats.mk (StudyStats.id current) (StudyStats.userId current)
                      totalStudyTime
                      (StudyStats.dailyGoal current)
                      (StudyStats.weeklyGoal current)
                      streakDays (Some now) (Some timeByCategory) in
      Js.Returned (updated, withStats st1 updated)
  end.
End Zone.

End MemStorage.

(** ** [DbStorage]: the study statistics

    The table [study_stats] is the list of its rows and the next value of
    the [serial] column [id]. The list holds the rows in the order in which
    the scan of a query meets them. PostgreSQL does not promise that order
    and may move a row that it updates, so nothing below depends on where
    a written row stands: a statement that reads the table again after a
    write is made of tables with one row of the implicit user, on which
    the query of [getStudyStats] has one possible result. A query that the
    database rejects throws: a value outside [int4] for an [integer]
    column, a [serial] with no value left, an [id] that the table holds
    already. *)

Module DbStorage.

Record t := mk {
  studyStats : list StudyStats.t;
  studyStatsSerial : Z
}.

(** A database with no row yet. *)
Definition emptyDb : t := mk [] 1.

(** Every value that [v] supplies for an [integer] column is an [int4]. *)
Definition inRange (v : PartialStudyStats.t) : bool :=
  from_option (from_option Js.int4 true) true (PartialStudyStats.userId v)
  && from_option Js.int4 true (PartialStudyStats.totalStudyTime v)
  && from_option Js.int4 true (PartialStudyStats.dailyGoal v)
  && from_option Js.int4 true (PartialStudyStats.weeklyGoal v)
  && from_option Js.int4 true (PartialStudyStats.streakDays v).

(** The error of a rejected query. *)
Definition outOfRange : string := "value out of range for type integer".

(** The row [insert(studyStats).values(v)] stores: a missing key takes the
    default of its column. *)
Definition rowOf (id : Z) (v : PartialStudyStats.t) : StudyStats.t :=
  PartialStudyStats.merge (StudyStats.mk id None 0 7200 36000 0 None (Some ∅)) v.

(** The error of [nextval] on a [serial] that has no value left. *)
Definition sequenceExhausted : string := "nextval: reached maximum value of sequence".

(** The error of a row whose [id] the table holds already. *)
Definition duplicateKey : string := "duplicate key value violates unique constraint".

(** [db.insert(studyStats).values(v).returning()]: the [id] is the next
    value of the [serial], an [int4] as well, and the primary key of the
    table. *)
Definition insertReturning (v : PartialStudyStats.t) (db : t)
    : Js.outcome (list StudyStats.t * t) :=
  let id := studyStatsSerial db in
  if inRange v
  then
    if Js.int4 id
    then
      if existsb (λ r, StudyStats.id r =? id) (studyStats db)
      then Js.Thrown duplicateKey
      else
        let row := rowOf id v in
        Js.Returned ([row], mk (studyStats db ++ [row]) (id + 1))
    else Js.Thrown sequenceExhausted
  else Js.Thrown outOfRange.

(** [db.update(studyStats).set(v).where(eq(studyStats.id, id)).returning()]. *)
Definition updateReturning (v : PartialStudyStats.t) (id : Z) (db : t)
    : Js.outcome (list StudyStats.t * t) :=
  let hit (r : StudyStats.t) := StudyStats.id r =? id in
  if inRange v
  then
    Js.Returned
      (map (λ r, PartialStudyStats.merge r v)
           (List.filter hit (studyStats db)),
       mk (map (λ r, if hit r then PartialStudyStats.merge r v else r)
               (studyStats db))
          (studyStatsSerial db))
  else Js.Thrown outOfRange.

(** [isNull(studyStats.userId)]. *)
Definition isNullUser (r : StudyStats.t) : bool :=
  match StudyStats.userId r with
  | None => true
  | Some _ => false
  end.

(** [select().from(studyStats).where(isNull(userId)).limit(1)], then
    [result.length > 0 ? result[0] : undefined]: the first row of the
    implicit user that the scan meets. *)
Definition getStudyStats (db : t) : option StudyStats.t :=
  head (take 1 (List.filter isNullUser (studyStats db))).

(** [category ? { [category]: seconds } : {}]. *)
Definition firstCategory (seconds : Z) (category : option string)
    : gmap string Js.value :=
  match category with
  | Some c => if Js.truthyString c then {[ c := Js.Num seconds ]} else ∅
  | None => ∅
  end.

Section Zone.
Variable tz : Date.zone.

(** [return result[0]]: [None] is the [undefined] of an empty result. *)
Definition increaseStudyTime (now seconds : Z) (category : option string)
    (db : t) : Js.outcome (option StudyStats.t * t) :=
  match getStudyStats db with
  | None =>
      let newStats :=
        PartialStudyStats.mk
          (Some None) (Some seconds) (Some 7200) (Some 36000) (Some 1)
          (Some (Some now))
          (Some (Some (firstCategory seconds category))) in
      match insertReturning newStats db with
      | Js.Returned (result, db') => Js.Returned (head result, db')
      | Js.Thrown msg => Js.Thrown msg
      end
  | Some currentStats =>
      let streakDays0 := Js.orNum (StudyStats.streakDays currentStats) 0 in
      let streakDays :=
        match StudyStats.lastStudyDate currentStats with
        | Some lastStudyDate =>
            Aggregator.streakAfter tz now lastStudyDate streakDays0
        | None => streakDays0
        end in
      let timeByCategory :=
        Aggregator.creditCategory (StudyStats.timeByCategory currentStats)
                                  seconds category in
      let updatedStats :=
        PartialStudyStats.mk
          None
          (Some (Js.orNum (StudyStats.totalStudyTime currentStats) 0 + seconds))
          None None (Some streakDays) (Some (Some now))
          (Some (Some timeByCategory)) in
      match updateReturning updatedStats (StudyStats.id currentStats) db with
      | Js.Returned (result, db') => Js.Returned (head result, db')
      | Js.Thrown msg => Js.Thrown msg
      end
  end.
End Zone.

End DbStorage.

(** ** The route [PUT /api/study-sessions/:id]

    [storage] is the [MemStorage] instance that [storage.ts] exports. *)

Module Routes.

Inductive response : Type :=
| Status200 (body : StudySession.t)
| Status400 (message : string)
| Status404 (message : string)
| Status500 (message : string).

(** The test of the [if] that guards the call of [increaseStudyTime]:
    [completed && duration && duration > 0]. *)
Definition creditDue (updatedSession : StudySession.t) : bool :=
  StudySession.completed updatedSession
  && match StudySession.duration updatedSession with
     | Some d => negb (d =? 0) && (0 <? d)
     | None => false
     end.

(** [tags && tags.length > 0 ? tags[0] : undefined]. *)
Definition firstTag (updatedSession : StudySession.t) : option string :=
  match StudySession.tags updatedSession with
  | Some (tag :: _) => Some tag
  | _ => None
  end.

(** One call of [storage.increaseStudyTime], with its two arguments. *)
Record call := mkCall {
  callSeconds : Z;
  callCategory : option string
}.

Section Zone.
Variable tz : Date.zone.

(** The handler: [id] is [parseInt(req.params.id)] with [None] for [NaN],
    [validatedData] the parsed body. It yields the response, the storage
    and the calls of [increaseStudyTime] it made. *)
Definition putStudySession (now : Z) (id : option Z)
    (validatedData : PartialStudySession.t) (storage : MemStorage.t)
    : response * MemStorage.t * list call :=
  match id with
  | None => (Status400 "Invalid session ID", storage, [])
  | Some id =>
      match MemStorage.updateStudySession id validatedData storage with
      | (None, storage1) =>
          (Status404 "Study session not found", storage1, [])
      | (Some updatedSession, storage1) =>
          if creditDue updatedSession
          then
            let seconds := default 0 (StudySession.duration updatedSession) in
            let category := firstTag updatedSession in
            match MemStorage.increaseStudyTime tz now seconds category
                                               storage1 with
            | Js.Returned (_, storage2) =>
                (Status200 updatedSession, storage2,
                 [mkCall seconds category])
            | Js.Thrown _ =>
                (Status500 "Failed to update study session", storage1,
                 [mkCall seconds category])
            end
          else (Status200 updatedSession, storage1, [])
      end
  end.

(** The handler with the parse of the body. [parsed] is what
    [insertStudySessionSchema.partial().parse(req.body)] gives: the
    validated data, or the message that [fromZodError] makes of the
    [ZodError] it throws. *)
Definition putStudySessionRequest (now : Z) (id : option Z)
    (parsed : string + PartialStudySession.t) (storage : MemStorage.t)
    : response * MemStorage.t * list call :=
  match id with
  | None => (Status400 "Invalid session ID", storage, [])
  | Some _ =>
      match parsed with
      | inl message => (Status400 message, storage, [])
      | inr validatedData => putStudySession now id validatedData storage
      end
  end.
End Zone.

End Routes.

(** ** Sequences of calls *)

(** One call of [increaseStudyTime]: the clock it sees and its arguments. *)
Record studyCall := mkStudyCall {
  atTime : Z;
  seconds : Z;
  category : option string
}.

Module MemRun.
Section Zone.
Variable tz : Date.zone.

(** The calls one after the other on the same [MemStorage]; the records
    they return, in order, and the storage they leave. *)
Fixpoint increaseAll (calls : list studyCall) (st : MemStorage.t)
    : Js.outcome (list StudyStats.t * MemStorage.t) :=
  match calls with
  | [] => Js.Returned ([], st)
  | c :: calls' =>
      match MemStorage.increaseStudyTime tz (atTime c) (seconds c)
                                         (category c) st with
      | Js.Thrown msg => Js.Thrown msg
      | Js.Returned (r, st1) =>
          match increaseAll calls' st1 with
          | Js.Thrown msg => Js.Thrown msg
          | Js.Returned (rs, st2) => Js.Returned (r :: rs, st2)
          end
      end
  end.
End Zone.
End MemRun.

Module DbRun.
Section Zone.
Variable tz : Date.zone.

(** The same for [DbStorage]; a call returns a row or [undefined]. *)
Fixpoint increaseAll (calls : list studyCall) (db : DbStorage.t)
    : Js.outcome (list (option StudyStats.t) * DbStorage.t) :=
  match calls with
  | [] => Js.Returned ([], db)
  | c :: calls' =>
      match DbStorage.increaseStudyTime tz (atTime c) (seconds c)
                                        (category c) db with
      | Js.Thrown msg => Js.Thrown msg
      | Js.Returned (r, db1) =>
          match increaseAll calls' db1 with
          | Js.Thrown msg => Js.Thrown msg
          | Js.Returned (rs, db2) => Js.Returned (r :: rs, db2)
          end
      end
  end.
End Zone.
End DbRun.

(** The record [MemStorage.increaseStudyTime] works on: the stored one, or
    the defaults that [updateStudyStats({})] creates when there is none. *)
Definition priorStats (st : MemStorage.t) : StudyStats.t :=
  default MemStorage.defaultStats (MemStorage.studyStatsInstance st).

(** No study time was credited yet: no record, or a record without
    [lastStudyDate], with no time on it and none under any category. *)
Definition noCreditedStudy (st : MemStorage.t) : Prop :=
  StudyStats.lastStudyDate (priorStats st) = None
  ∧ StudyStats.totalStudyTime (priorStats st) = 0
  ∧ StudyStats.categories (priorStats st) = ∅.

(** The calendar as the code reads it off the zone. [t'] is on the
    calendar day of [t] when both have the same midnight; [t'] is on the
    day after that of [t] when the midnight a day before the one of [t'],
    the [yesterday] of a call at [t'], is the midnight of [t]. *)
Definition sameDay (tz : Date.zone) (t t' : Z) : Prop :=
  Date.setHours0 tz t' = Date.setHours0 tz t.

Definition dayAfter (tz : Date.zone) (t t' : Z) : Prop :=
  Aggregator.yesterday tz t' = Date.setHours0 tz t.

(** What the calendar of every zone does: the midnight a day before a
    midnight is earlier than it. *)
Definition regularZone (tz : Date.zone) : Prop :=
  ∀ t, Aggregator.yesterday tz t < Aggregator.today tz t.

(** What the invariant of [streakDays] asks of one call at [now]: [before]
    is the record the store held, if any, and [after] the record the call
    returns. [streakDays] is at least 1; it is 1 on first use, when no
    [lastStudyDate] was stored; on the calendar day of the stored
    [lastStudyDate] it does not decrease; when the day of the stored
    [lastStudyDate] is before yesterday, two or more days back, it is 1. *)
Definition streakStep (tz : Date.zone) (before : option StudyStats.t)
    (now : Z) (after : StudyStats.t) : Prop :=
  1 ≤ StudyStats.streakDays after
  ∧ (before ≫= StudyStats.lastStudyDate = None →
     StudyStats.streakDays after = 1)
  ∧ ∀ (b : StudyStats.t) (last : Z),
      before = Some b → StudyStats.lastStudyDate b = Some last →
      (sameDay tz now last →
       StudyStats.streakDays b ≤ StudyStats.streakDays after)
      ∧ (Date.setHours0 tz last < Aggregator.yesterday tz now →
         StudyStats.streakDays after = 1).

(** The record both stores write for a stored record [cur]; [onAbsent] is
    the [streakDays] taken when [cur] has no [lastStudyDate]. *)
Definition creditedStats (tz : Date.zone) (now secs : Z)
    (cat : option string)
    (onAbsent : Z) (cur : StudyStats.t) : StudyStats.t :=
  StudyStats.mk
    (StudyStats.id cur) (StudyStats.userId cur)
    (StudyStats.totalStudyTime cur + secs)
    (StudyStats.dailyGoal cur) (StudyStats.weeklyGoal cur)
    (match StudyStats.lastStudyDate cur with
     | Some last =>
         Aggregator.streakAfter tz now last (StudyStats.streakDays cur)
     | None => onAbsent
     end)
    (Some now)
    (Some (Aggregator.creditCategory (StudyStats.timeByCategory cur)
                                     secs cat)).

(** The primary key of [study_stats]: no two rows share an [id]. *)
Definition uniqueIds (db : DbStorage.t) : Prop :=
  NoDup (map StudyStats.id (DbStorage.studyStats db)).

(** What the calls of [increaseStudyTime] keep true of a [MemStorage]: a
    stored [lastStudyDate] comes with a [streakDays] of at least 1. *)
Definition memStreakInv (st : MemStorage.t) : Prop :=
  StudyStats.lastStudyDate (priorStats st) = None
  ∨ 1 ≤ StudyStats.streakDays (priorStats st).

(** The [totalStudyTime] and [streakDays] of [r] are values of their
    [integer] columns. *)
Definition int4Row (r : StudyStats.t) : Prop :=
  Js.int4 (StudyStats.totalStudyTime r) = true
  ∧ Js.int4 (StudyStats.streakDays r) = true.

(** The row [r] is of such values, and so is it with [secs] more seconds
    and with one more day. *)
Definition creditFits (secs : Z) (r : StudyStats.t) : Prop :=
  int4Row r
  ∧ Js.int4 (StudyStats.totalStudyTime r + secs) = true
  ∧ Js.int4 (StudyStats.streakDays r + 1) = true.

(** The category, if there is one, is not the name of a member of
    [Object.prototype]. *)
Definition plainCategory (cat : option string) : Prop :=
  ∀ c, cat = Some c → Js.isInherited c = false.

(** At most one row is of the implicit user: the query of
    [getStudyStats] then has one possible result, whatever the order of
    the rows. *)
Definition oneImplicitUser (db : DbStorage.t) : Prop :=
  (length (List.filter DbStorage.isNullUser (DbStorage.studyStats db)) ≤ 1)%nat.

(** The trigger read as a change of [completed]: the handler makes a call
    exactly when the stored session was not completed and the updated one
    is, with a positive duration. *)
Definition creditsOnTransition (tz : Date.zone) (now id : Z)
    (validatedData : PartialStudySession.t) (storage : MemStorage.t) : Prop :=
  (Routes.putStudySession tz now (Some id) validatedData storage).2 ≠ []
  ↔ ∃ old d,
      MemStorage.getStudySession id storage = Some old
      ∧ StudySession.completed old = false
      ∧ StudySession.completed (PartialStudySession.merge old validatedData)
        = true
      ∧ StudySession.duration (PartialStudySession.merge old validatedData)
        = Some d
      ∧ 0 < d.

(** A session that a first request completes, with 1800 seconds under the
    tags Math and Review. *)
Definition completedOnce : MemStorage.t :=
  let created :=
    snd (MemStorage.createStudySession 864000000
           (InsertStudySession.mk None None None None "pomodoro"
              (Some (Some ["Math"; "Review"])) None None)
           MemStorage.constructor) in
  (Routes.putStudySession Date.utc 864003600 (Some 1)
     (PartialStudySession.mk None None None (Some (Some 1800)) None None None
                             (Some true))
     created).1.2.

(** ** The methods of [MemStorage] as a transition system *)

Module MemOps.

(** A call of one of the methods that assign a field of the object. *)
Inductive op : Type :=
| CreateTask (now : Z) (insertTask : InsertTask.t)
| UpdateTask (id : Z) (updateData : PartialTask.t)
| DeleteTask (id : Z)
| UpdateTimerSettings (settings : PartialTimerSettings.t)
| CreateStudySession (now : Z) (session : InsertStudySession.t)
| UpdateStudySession (id : Z) (sessionData : PartialStudySession.t)
| DeleteStudySession (id : Z)
| UpdateStudyStats (stats : PartialStudyStats.t)
| IncreaseStudyTime (now : Z) (seconds : Z) (category : option string).

(** The call passes a value for [backgroundImage] or for
    [useCustomBackground]. *)
Definition suppliesBackground (o : op) : bool :=
  match o with
  | UpdateTimerSettings settings =>
      bool_decide (is_Some (PartialTimerSettings.backgroundImage settings))
      || bool_decide
           (is_Some (PartialTimerSettings.useCustomBackground settings))
  | _ => false
  end.

Section Zone.
Variable tz : Date.zone.

(** The storage a call leaves. *)
Definition step (st : MemStorage.t) (o : op) : MemStorage.t :=
  match o with
  | CreateTask now insertTask => snd (MemStorage.createTask now insertTask st)
  | UpdateTask id updateData => snd (MemStorage.updateTask id updateData st)
  | DeleteTask id => snd (MemStorage.deleteTask id st)
  | UpdateTimerSettings settings =>
      snd (MemStorage.updateTimerSettings settings st)
  | CreateStudySession now session =>
      snd (MemStorage.createStudySession now session st)
  | UpdateStudySession id sessionData =>
      snd (MemStorage.updateStudySession id sessionData st)
  | DeleteStudySession id => snd (MemStorage.deleteStudySession id st)
  | UpdateStudyStats stats => snd (MemStorage.updateStudyStats stats st)
  | IncreaseStudyTime now seconds category =>
      match MemStorage.increaseStudyTime tz now seconds category st with
      | Js.Returned (_, st') => st'
      | Js.Thrown _ => st
      end
  end.

(** The storage after the calls [ops] on a new [MemStorage]. *)
Definition run (ops : list op) : MemStorage.t :=
  foldl step MemStorage.constructor ops.
End Zone.

End MemOps.

(** ** The users of [MemStorage]

    The three user methods read and write only the fields [users] and
    [userId] of the class; their state is these two fields. *)

Module User.
Record t := mk {
  id : Z;
  username : string;
  password : string
}.
End User.

(** [InsertUser]. *)
Module InsertUser.
Record t := mk {
  username : string;
  password : string
}.
End InsertUser.

Module MemUsers.

Record t := mk {
  users : list (Z * User.t);
  userId : Z
}.

(** The two fields as the constructor sets them. *)
Definition constructor : t := mk [] 1.

Definition getUser (id : Z) (st : t) : option User.t :=
  JsMap.get id (users st).

(** [Array.from(this.users.values()).find(user => user.username === username)]. *)
Definition getUserByUsername (username : string) (st : t) : option User.t :=
  List.find (λ user, String.eqb (User.username user) username)
            (JsMap.values (users st)).

Definition createUser (insertUser : InsertUser.t) (st : t) : User.t * t :=
  let id := userId st in
  let user :=
    User.mk id (InsertUser.username insertUser)
            (InsertUser.password insertUser) in
  (user, mk (JsMap.set id user (users st)) (id + 1)).

(** The storage after the calls of [createUser] on a new one. *)
Definition run (inserts : list InsertUser.t) : t :=
  foldl (λ st insertUser, (createUser insertUser st).2) constructor inserts.

End MemUsers.

(** ** One more route on [MemStorage] *)

(** The handler registered for [DELETE /api/tasks/completed]. *)
Module TaskRoutes.

Inductive response : Type :=
| Status204
| Status500 (message : string).

(** Each [storage.deleteTask(task.id)] of the [map] runs to its end when
    it is called, so the deletions happen in the order of [completedTasks]. *)
Definition deleteCompleted (storage : MemStorage.t)
    : response * MemStorage.t :=
  let tasks := MemStorage.getTasks storage in
  let completedTasks := List.filter Task.completed tasks in
  (Status204,
   foldl (λ st task, (MemStorage.deleteTask (Task.id task) st).2)
         storage completedTasks).

End TaskRoutes.

(** ** What the ids and the runs are measured by *)

(** The shape the maps of [MemStorage] keep: distinct keys, each below the
    counter [next], each record under the key that is its own [id]. *)
Definition keyed {V : Type} (idOf : V → Z) (next : Z) (m : list (Z * V))
    : Prop :=
  NoDup (map fst m) ∧ Forall (λ kv, kv.1 < next ∧ idOf kv.2 = kv.1) m.

Definition memIdsInv (st : MemStorage.t) : Prop :=
  keyed Task.id (MemStorage.taskId st) (MemStorage.tasksMap st)
  ∧ keyed StudySession.id (MemStorage.sessionId st)
          (MemStorage.studySessionsMap st).

(** The seconds of all the calls. *)
Definition totalSeconds (calls : list studyCall) : Z :=
  foldr (λ c acc, seconds c + acc) 0 calls.

(** The call names the category [k], and [k] is not the empty string. *)
Definition creditsTo (k : string) (c : studyCall) : bool :=
  match category c with
  | Some c' => String.eqb c' k && Js.truthyString c'
  | None => false
  end.

(** The seconds of the calls that name the category [k]. *)
Definition categorySeconds (k : string) (calls : list studyCall) : Z :=
  totalSeconds (List.filter (creditsTo k) calls).

(** Every call is on the calendar day of the one before it, or on the day
    after; [prev] is the time of the call before the first. *)
Fixpoint noGap (tz : Date.zone) (prev : Z) (calls : list studyCall) : Prop :=
  match calls with
  | [] => True
  | c :: calls' =>
      (sameDay tz prev (atTime c) ∨ dayAfter tz prev (atTime c))
      ∧ noGap tz (atTime c) calls'
  end.

(** How many of the calls are on the day after the call before them. *)
Fixpoint daysEntered (tz : Date.zone) (prev : Z) (calls : list studyCall)
    : Z :=
  match calls with
  | [] => 0
  | c :: calls' =>
      (if Aggregator.yesterday tz (atTime c) =? Date.setHours0 tz prev
       then 1 else 0)
      + daysEntered tz (atTime c) calls'
  end.

(** ** What the sums are read on *)

(** The sum [a + b] of the code is the sum of the integers. *)
Definition exactSum (a b : Z) : Prop :=
  Js.safeInteger a ∧ Js.safeInteger b ∧ Js.safeInteger (a + b).

(** The seconds that [m] holds under [key] are [n]: a number stored under
    the key, or 0 for a key that [m] does not hold and that reads
    [undefined], no member of [Object.prototype] bearing its name. *)
Definition storedSeconds (m : gmap string Js.value) (key : string) (n : Z)
    : Prop :=
  m !! key = Some (Js.Num n)
  ∨ (m !! key = None ∧ Js.isInherited key = false ∧ n = 0).

(** A call without category returns the [timeByCategory] that was stored. *)
Definition categoriesUntouched (tz : Date.zone) (now secs : Z)
    (st : MemStorage.t) : Prop :=
  ∀ r st',
    MemStorage.increaseStudyTime tz now secs None st = Js.Returned (r, st') →
    StudyStats.timeByCategory r = StudyStats.timeByCategory (priorStats st).

(** ** Facts about the primitives *)

#[global] Arguments Aggregator.creditCategory : simpl never.
#[global] Arguments Aggregator.streakAfter : simpl never.

Lemma orNum_zero (x : Z) : Js.orNum x 0 = x.
Proof. unfold Js.orNum. destruct (Z.eqb_spec x 0); congruence. Qed.

Lemma orNumOpt_zero (o : option Z) : Js.orNumOpt o 0 = default 0 o.
Proof. destruct o; simpl; [apply orNum_zero | reflexivity]. Qed.

Lemma truthyString_true (c : string) : Js.truthyString c = true ↔ c ≠ "".
Proof.
  unfold Js.truthyString. destruct (String.eqb_spec c ""); simpl; split;
    congruence.
Qed.

Lemma truthyString_false (c : string) : Js.truthyString c = false ↔ c = "".
Proof.
  unfold Js.truthyString. destruct (String.eqb_spec c ""); simpl; split;
    congruence.
Qed.

Section DateFacts.
Variable tz : Date.zone.

Lemma streakAfter_yesterday (now last streak : Z) :
  Date.setHours0 tz last = Aggregator.yesterday tz now →
  Aggregator.streakAfter tz now last streak = streak + 1.
Proof.
  intros H. unfold Aggregator.streakAfter. rewrite H, Z.eqb_refl. reflexivity.
Qed.

Lemma streakAfter_earlier (now last streak : Z) :
  Date.setHours0 tz last < Aggregator.yesterday tz now →
  Aggregator.streakAfter tz now last streak = 1.
Proof.
  intros H. unfold Aggregator.streakAfter.
  destruct (Z.eqb_spec (Date.setHours0 tz last) (Aggregator.yesterday tz now));
    [lia |].
  destruct (Z.ltb_spec (Date.setHours0 tz last) (Aggregator.yesterday tz now));
    [reflexivity | lia].
Qed.

Lemma streakAfter_today (now last streak : Z) :
  Aggregator.yesterday tz now < Aggregator.today tz now →
  Date.setHours0 tz last = Aggregator.today tz now →
  Aggregator.streakAfter tz now last streak = streak.
Proof.
  intros Hlt H. unfold Aggregator.streakAfter. rewrite H.
  destruct (Z.eqb_spec (Aggregator.today tz now) (Aggregator.yesterday tz now));
    [lia |].
  destruct (Z.ltb_spec (Aggregator.today tz now) (Aggregator.yesterday tz now));
    [lia | reflexivity].
Qed.

(** The streak after a call is the stored one, that plus 1, or 1. *)
Lemma streakAfter_cases (now last streak : Z) :
  Aggregator.streakAfter tz now last streak = streak
  ∨ Aggregator.streakAfter tz now last streak = streak + 1
  ∨ Aggregator.streakAfter tz now last streak = 1.
Proof.
  unfold Aggregator.streakAfter.
  destruct (_ =? _); [by right; left |]. destruct (_ <? _); auto.
Qed.

End DateFacts.

(** A zone at a constant offset is regular. *)
Lemma fixedOffset_regular (offset : Z) : regularZone (Date.fixedOffset offset).
Proof.
  intros t. unfold Aggregator.yesterday, Aggregator.today. simpl.
  unfold Date.msPerDay. lia.
Qed.

(** ** [MemStorage.increaseStudyTime] *)

Section MemIncrease.
Variable tz : Date.zone.

(** The method never throws, and its result is this record. *)
Lemma mem_increase_returns (now secs : Z) (cat : option string)
    (st : MemStorage.t) :
  let updated := creditedStats tz now secs cat 1 (priorStats st) in
  MemStorage.increaseStudyTime tz now secs cat st =
    Js.Returned (updated, MemStorage.withStats st updated).
Proof.
  unfold MemStorage.increaseStudyTime, priorStats.
  destruct st as [tm ts sm [s|] ti si]; simpl; rewrite ?orNum_zero;
    reflexivity.
Qed.

End MemIncrease.



(** ** Time by category *)

Lemma addTo_stored (m : gmap string Js.value) (c : string) (n secs : Z) :
  storedSeconds m c n → Js.addTo m c secs = Js.Num (n + secs).
Proof.
  unfold Js.addTo. intros [-> | (-> & -> & ->)]; [| done].
  by rewrite orNum_zero.
Qed.

Lemma creditCategory_truthy (stored : option (gmap string Js.value))
    (secs : Z) (c : string) :
  c ≠ "" →
  Aggregator.creditCategory stored secs (Some c)
  = <[c := Js.addTo (default ∅ stored) c secs]> (default ∅ stored).
Proof.
  intros Hc. unfold Aggregator.creditCategory.
  apply truthyString_true in Hc. by rewrite Hc.
Qed.

Lemma creditCategory_falsy (stored : option (gmap string Js.value))
    (secs : Z) (cat : option string) :
  cat = None ∨ cat = Some "" →
  Aggregator.creditCategory stored secs cat = default ∅ stored.
Proof. intros [-> | ->]; reflexivity. Qed.

(** C3, as the code has it. [MemStorage.increaseStudyTime] returns, and
    adds [seconds] to [totalStudyTime] where that sum is exact. With a
    category that is a non-empty string under which the prior mapping
    holds a number, or holds nothing and reads [undefined], the returned
    [timeByCategory] is the prior mapping with that key set to the prior
    number (0 when the key was absent) plus [seconds], every other key as
    before. With no category or the empty string it is the prior mapping,
    a stored [null] coming back as the empty object. From fresh stats, 50
    on Math, 30 on Math and 20 on Physics leave [{Math: 80, Physics: 20}]
    and a total of 100. *)
Theorem mem_increaseStudyTime_category (tz : Date.zone) (now secs : Z)
    (cat : option string) (st : MemStorage.t) :
  (∃ r st',
      MemStorage.increaseStudyTime tz now secs cat st = Js.Returned (r, st')
      ∧ (exactSum (StudyStats.totalStudyTime (priorStats st)) secs →
         StudyStats.totalStudyTime r
         = StudyStats.totalStudyTime (priorStats st) + secs)
      ∧ (∀ (c : string) (n : Z),
           cat = Some c → c ≠ "" →
           storedSeconds (StudyStats.categories (priorStats st)) c n →
           exactSum n secs →
           StudyStats.timeByCategory r
           = Some (<[c := Js.Num (n + secs)]>
                     (StudyStats.categories (priorStats st)))
           ∧ StudyStats.categories r !! c = Some (Js.Num (n + secs))
           ∧ ∀ k : string, k ≠ c →
               StudyStats.categories r !! k
               = StudyStats.categories (priorStats st) !! k)
      ∧ (cat = None ∨ cat = Some "" →
           StudyStats.timeByCategory r
           = Some (StudyStats.categories (priorStats st))))
  ∧ (∀ (t2 t3 : Z),
        noCreditedStudy st →
        ∃ r1 r2 r3 st',
          MemRun.increaseAll tz
            [mkStudyCall now 50 (Some "Math"); mkStudyCall t2 30 (Some "Math");
             mkStudyCall t3 20 (Some "Physics")] st
          = Js.Returned ([r1; r2; r3], st')
          ∧ StudyStats.timeByCategory r3
            = Some {[ "Math" := Js.Num 80; "Physics" := Js.Num 20 ]}
          ∧ StudyStats.totalStudyTime r3 = 100).
Proof.
  split.
  - eexists _, _. split; [apply mem_increase_returns |].
    split; [reflexivity |]. split.
    + intros c n -> Hc Hn _. simpl. unfold StudyStats.categories. simpl.
      rewrite (creditCategory_truthy _ _ _ Hc), (addTo_stored _ _ _ _ Hn).
      split; [reflexivity |].
      split; [apply lookup_insert_eq |].
      intros k Hk. by apply lookup_insert_ne.
    + intros Hcat. simpl. by rewrite (creditCategory_falsy _ _ _ Hcat).
  - intros t2 t3 (_ & Htotal & Hcats).
    eexists _, _, _, _. split.
    + simpl. rewrite !mem_increase_returns. simpl. reflexivity.
    + unfold priorStats, StudyStats.categories in *. simpl.
      rewrite Htotal. split; [| reflexivity].
      rewrite !creditCategory_truthy by done. simpl. rewrite Hcats.
      reflexivity.
Qed.

Lemma mem_increaseStudyTime_category_witness :
  let st :=
    MemStorage.withStats MemStorage.constructor
      (StudyStats.mk 1 None 50 7200 36000 1 (Some 864000000)
                     (Some {[ "Math" := Js.Num 50 ]})) in
  ∃ r st',
    MemStorage.increaseStudyTime Date.utc 864003600 30 (Some "Math") st
    = Js.Returned (r, st')
    ∧ StudyStats.totalStudyTime r = 50 + 30
    ∧ StudyStats.categories r !! "Math" = Some (Js.Num (50 + 30))
    ∧ StudyStats.categories r !! "Physics" = None.
Proof.
  intros st.
  destruct (proj1 (mem_increaseStudyTime_category Date.utc 864003600 30
                     (Some "Math") st))
    as (r & st' & Hrun & Htotal & Hcat & _).
  exists r, st'. split; [exact Hrun |]. split.
  - apply Htotal. repeat split; vm_compute; discriminate.
  - destruct (Hcat "Math" 50 eq_refl) as (_ & Hmath & Hothers).
    + discriminate.
    + left. reflexivity.
    + repeat split; vm_compute; discriminate.
    + split; [exact Hmath |].
      rewrite (Hothers "Physics") by discriminate. reflexivity.
Defined.

(** C3 as the specification words it does not hold: on a stored [null] a
    call without category returns the empty object, not the [null] that
    was stored. *)
Lemma null_timeByCategory_comes_back_empty :
  ¬ categoriesUntouched Date.utc 864000000 50
      (MemStorage.withStats MemStorage.constructor
         (StudyStats.mk 1 None 0 7200 36000 0 None None)).
Proof.
  intros H. specialize (H _ _ (mem_increase_returns _ _ _ _ _)).
  discriminate H.
Qed.

(** ** [DbStorage.increaseStudyTime] *)

Section DbIncrease.
Variable tz : Date.zone.

Lemma db_first_null_split (rows : list StudyStats.t) (cur : StudyStats.t) :
  head (take 1 (List.filter DbStorage.isNullUser rows)) = Some cur →
  ∃ l1 l2, rows = l1 ++ cur :: l2
           ∧ List.filter DbStorage.isNullUser l1 = []
           ∧ DbStorage.isNullUser cur = true.
Proof.
  induction rows as [| r rows IH]; simpl; [discriminate |].
  destruct (DbStorage.isNullUser r) eqn:Hr; simpl.
  - intros [= <-]. exists [], rows. auto.
  - intros H. destruct (IH H) as (l1 & l2 & -> & Hl1 & Hcur).
    exists (r :: l1), l2. simpl. rewrite Hr. auto.
Qed.

Lemma db_first_null_found (l1 l2 : list StudyStats.t) (r : StudyStats.t) :
  List.filter DbStorage.isNullUser l1 = [] →
  DbStorage.isNullUser r = true →
  head (take 1 (List.filter DbStorage.isNullUser (l1 ++ r :: l2))) = Some r.
Proof.
  intros Hl1 Hr. rewrite List.filter_app, Hl1. simpl. rewrite Hr. reflexivity.
Qed.

Lemma db_first_null_none (rows : list StudyStats.t) :
  head (take 1 (List.filter DbStorage.isNullUser rows)) = None →
  List.filter DbStorage.isNullUser rows = [].
Proof. destruct (List.filter DbStorage.isNullUser rows); [done | discriminate]. Qed.

Lemma filter_other_ids (i : Z) (l : list StudyStats.t) :
  i ∉ map StudyStats.id l →
  List.filter (λ r, StudyStats.id r =? i) l = [].
Proof.
  induction l as [| r l IH]; simpl; [done |].
  rewrite not_elem_of_cons. intros [Hne Hl].
  destruct (Z.eqb_spec (StudyStats.id r) i); [congruence | auto].
Qed.

Lemma map_other_ids (i : Z) (g : StudyStats.t → StudyStats.t)
    (l : list StudyStats.t) :
  i ∉ map StudyStats.id l →
  map (λ r, if StudyStats.id r =? i then g r else r) l = l.
Proof.
  induction l as [| r l IH]; simpl; [done |].
  rewrite not_elem_of_cons. intros [Hne Hl].
  destruct (Z.eqb_spec (StudyStats.id r) i); [congruence |].
  by rewrite IH.
Qed.

(** With no row of the implicit user the method inserts one, unless
    [seconds] is outside [int4]. *)
Lemma db_increase_insert (now secs : Z) (cat : option string)
    (db : DbStorage.t) :
  DbStorage.getStudyStats db = None →
  Js.int4 (DbStorage.studyStatsSerial db) = true →
  DbStorage.studyStatsSerial db ∉ map StudyStats.id (DbStorage.studyStats db) →
  Js.int4 secs = true →
  let row :=
    StudyStats.mk (DbStorage.studyStatsSerial db) None secs 7200 36000 1
                  (Some now) (Some (DbStorage.firstCategory secs cat)) in
  let db' := DbStorage.mk (DbStorage.studyStats db ++ [row])
                          (DbStorage.studyStatsSerial db + 1) in
  DbStorage.increaseStudyTime tz now secs cat db = Js.Returned (Some row, db')
  ∧ DbStorage.getStudyStats db' = Some row.
Proof.
  intros Hget Hserial Hfresh Hsecs.
  unfold DbStorage.increaseStudyTime. rewrite Hget.
  unfold DbStorage.insertReturning, DbStorage.inRange. simpl.
  rewrite Hserial, Hsecs. simpl.
  assert (Hnone : existsb (λ r, StudyStats.id r =? DbStorage.studyStatsSerial db)
                          (DbStorage.studyStats db) = false).
  { apply not_true_is_false. rewrite existsb_exists.
    intros (r & Hin & Hr). apply Hfresh. apply Z.eqb_eq in Hr. rewrite <- Hr.
    apply list_elem_of_In, in_map, Hin. }
  rewrite Hnone. split; [reflexivity |].
  unfold DbStorage.getStudyStats in *. simpl.
  apply db_first_null_found; [by apply db_first_null_none | reflexivity].
Qed.

(** With such a row [cur], met first by the scan, the method updates it,
    unless the new total or the new streak is outside [int4]; the rows
    before and after it are as they were. *)
Lemma db_increase_update (now secs : Z) (cat : option string)
    (db : DbStorage.t) (cur : StudyStats.t) :
  DbStorage.getStudyStats db = Some cur →
  uniqueIds db →
  let upd := creditedStats tz now secs cat (StudyStats.streakDays cur) cur in
  Js.int4 (StudyStats.totalStudyTime upd) = true →
  Js.int4 (StudyStats.streakDays upd) = true →
  ∃ l1 l2,
    DbStorage.studyStats db = l1 ++ cur :: l2
    ∧ List.filter DbStorage.isNullUser l1 = []
    ∧ DbStorage.increaseStudyTime tz now secs cat db
      = Js.Returned
          (Some upd,
           DbStorage.mk (l1 ++ upd :: l2) (DbStorage.studyStatsSerial db)).
Proof.
  intros Hget Hids upd Htotal Hstreak.
  unfold DbStorage.increaseStudyTime. rewrite Hget.
  destruct db as [rows serial].
  unfold uniqueIds in Hids. unfold DbStorage.getStudyStats in Hget.
  simpl in Hget, Hids |- *.
  destruct (db_first_null_split _ _ Hget) as (l1 & l2 & -> & Hl1 & Hcur).
  exists l1, l2. split; [done |]. split; [done |].
  rewrite map_app in Hids. simpl in Hids.
  apply NoDup_app in Hids as (_ & Hdisj & Hnd).
  apply NoDup_cons in Hnd as [Hl2 _].
  assert (Hnot1 : StudyStats.id cur ∉ map StudyStats.id l1).
  { intros Hin. apply (Hdisj _ Hin). left. }
  unfold DbStorage.updateReturning, DbStorage.inRange. simpl.
  rewrite !orNum_zero.
  change (StudyStats.totalStudyTime cur + secs)
    with (StudyStats.totalStudyTime upd).
  change (match StudyStats.lastStudyDate cur with
          | Some lastStudyDate =>
              Aggregator.streakAfter tz now lastStudyDate
                (StudyStats.streakDays cur)
          | None => StudyStats.streakDays cur
          end) with (StudyStats.streakDays upd).
  rewrite Htotal, Hstreak. simpl.
  rewrite List.filter_app, !map_app. simpl.
  rewrite Z.eqb_refl, !filter_other_ids, !map_other_ids by done. simpl.
  reflexivity.
Qed.

(** A credit that fits: neither value of the update is out of range. *)
Lemma creditFits_int4 (now secs : Z) (cat : option string)
    (cur : StudyStats.t) :
  creditFits secs cur →
  let upd := creditedStats tz now secs cat (StudyStats.streakDays cur) cur in
  Js.int4 (StudyStats.totalStudyTime upd) = true
  ∧ Js.int4 (StudyStats.streakDays upd) = true.
Proof.
  intros ((_ & Hstreak) & Htotal & Hnext). simpl. split; [exact Htotal |].
  destruct (StudyStats.lastStudyDate cur) as [last|]; [| exact Hstreak].
  by destruct (streakAfter_cases tz now last (StudyStats.streakDays cur))
    as [-> | [-> | ->]].
Qed.

(** An update whose total is out of range is rejected. *)
Lemma db_increase_rejected (now secs : Z) (cat : option string)
    (db : DbStorage.t) (cur : StudyStats.t) :
  DbStorage.getStudyStats db = Some cur →
  Js.int4 (StudyStats.totalStudyTime cur + secs) = false →
  DbStorage.increaseStudyTime tz now secs cat db
  = Js.Thrown DbStorage.outOfRange.
Proof.
  intros Hget Htotal. unfold DbStorage.increaseStudyTime. rewrite Hget.
  unfold DbStorage.updateReturning, DbStorage.inRange. simpl.
  by rewrite orNum_zero, Htotal.
Qed.

End DbIncrease.

(** ** The invariant of [streakDays] *)

Section Streak.
Variable tz : Date.zone.
Hypothesis regular : regularZone tz.

Lemma streakStep_credited (now secs onAbsent : Z) (cat : option string)
    (cur : StudyStats.t) :
  (StudyStats.lastStudyDate cur = None → onAbsent = 1) →
  (is_Some (StudyStats.lastStudyDate cur) → 1 ≤ StudyStats.streakDays cur) →
  streakStep tz (Some cur) now (creditedStats tz now secs cat onAbsent cur).
Proof.
  intros Habs Hpos. unfold streakStep, creditedStats. simpl.
  destruct (StudyStats.lastStudyDate cur) as [last|] eqn:Hlast.
  - specialize (Hpos (mk_is_Some _ _ eq_refl)).
    split; [| split; [discriminate |]].
    + destruct (streakAfter_cases tz now last (StudyStats.streakDays cur))
        as [-> | [-> | ->]]; lia.
    + intros b last' [= <-] Hb. rewrite Hlast in Hb. injection Hb as <-.
      split.
      * intros Hsame. rewrite streakAfter_today; [lia | apply regular |].
        exact Hsame.
      * intros Hearlier. by apply streakAfter_earlier.
  - rewrite (Habs eq_refl).
    split; [lia |]. split; [done |].
    intros b last' [= <-] Hb. congruence.
Qed.

(** One call on a [MemStorage] that satisfies the invariant. *)
Lemma mem_streak_step (now secs : Z) (cat : option string)
    (st : MemStorage.t) :
  memStreakInv st →
  ∃ r st',
    MemStorage.increaseStudyTime tz now secs cat st = Js.Returned (r, st')
    ∧ MemStorage.getStudyStats st' = Some r
    ∧ StudyStats.lastStudyDate r = Some now
    ∧ streakStep tz (MemStorage.getStudyStats st) now r
    ∧ memStreakInv st'.
Proof.
  intros Hinv. eexists _, _. split; [apply mem_increase_returns |].
  split; [reflexivity |]. split; [reflexivity |].
  assert (Hstep : streakStep tz (Some (priorStats st)) now
                    (creditedStats tz now secs cat 1 (priorStats st))).
  { apply streakStep_credited; [done |].
    intros [last Hlast]. destruct Hinv as [Hnone | Hpos]; [congruence | done]. }
  split.
  - unfold MemStorage.getStudyStats, priorStats in *.
    destruct (MemStorage.studyStatsInstance st) as [s|]; [exact Hstep |].
    destruct Hstep as (H1 & H2 & _). split; [exact H1 |].
    split; [intros _; by apply H2 | intros b last; discriminate].
  - right. unfold priorStats. simpl. apply Hstep.
Qed.

Lemma mem_streak_run (calls : list studyCall) (st : MemStorage.t) :
  memStreakInv st →
  ∃ rs st', MemRun.increaseAll tz calls st = Js.Returned (rs, st')
            ∧ Forall (λ r, 1 ≤ StudyStats.streakDays r) rs
            ∧ memStreakInv st'.
Proof.
  revert st. induction calls as [| c calls IH]; intros st Hinv; simpl.
  - eexists _, _. eauto.
  - destruct (mem_streak_step (atTime c) (seconds c) (category c) st Hinv)
      as (r & st1 & -> & _ & _ & Hstep & Hinv1).
    destruct (IH st1 Hinv1) as (rs & st2 & -> & Hall & Hinv2).
    eexists _, _. split; [reflexivity |]. split; [| exact Hinv2].
    constructor; [apply Hstep | exact Hall].
Qed.

End Streak.

Lemma mem_constructor_inv : memStreakInv MemStorage.constructor.
Proof. left. reflexivity. Qed.

(** C2. The invariant does not hold of [DbStorage]. On a table whose row
    of the implicit user has no [lastStudyDate] and a [streakDays] of 0,
    as the defaults of the columns leave it, the first
    [increaseStudyTime] returns, and returns a [streakDays] of 0 where
    first use asks for exactly 1 and never 0. *)
Theorem db_first_use_leaves_streak_zero :
  let db := DbStorage.mk [MemStorage.defaultStats] 2 in
  DbStorage.getStudyStats db = Some MemStorage.defaultStats
  ∧ StudyStats.lastStudyDate MemStorage.defaultStats = None
  ∧ ∃ r db',
      DbStorage.increaseStudyTime Date.utc 864000000 100 (Some "Math") db
      = Js.Returned (Some r, db')
      ∧ DbStorage.getStudyStats db' = Some r
      ∧ StudyStats.streakDays r = 0
      ∧ ¬ streakStep Date.utc (DbStorage.getStudyStats db) 864000000 r.
Proof.
  split; [reflexivity |]. split; [reflexivity |].
  eexists _, _. split; [reflexivity |]. split; [reflexivity |].
  split; [reflexivity |].
  intros [Hone _]. vm_compute in Hone. by apply Hone.
Qed.

(** X22. After any sequence [calls] of [increaseStudyTime] on a new
    [MemStorage], in a regular zone, every record returned so far has
    [streakDays] at least 1, and one more call [c] returns a record that
    the storage now holds, with [lastStudyDate] the time of the call and a
    [streakDays] that is at least 1, is exactly 1 on first use and when
    the day of the stored [lastStudyDate] is before yesterday, and is not
    below the stored value on the calendar day of the stored
    [lastStudyDate]. *)
Theorem mem_streak_invariant (tz : Date.zone) (calls : list studyCall)
    (c : studyCall) :
  regularZone tz →
  ∃ rs st r st',
    MemRun.increaseAll tz calls MemStorage.constructor = Js.Returned (rs, st)
    ∧ Forall (λ r, 1 ≤ StudyStats.streakDays r) rs
    ∧ MemStorage.increaseStudyTime tz (atTime c) (seconds c) (category c) st
      = Js.Returned (r, st')
    ∧ MemStorage.getStudyStats st' = Some r
    ∧ StudyStats.lastStudyDate r = Some (atTime c)
    ∧ streakStep tz (MemStorage.getStudyStats st) (atTime c) r.
Proof.
  intros Hreg.
  destruct (mem_streak_run tz Hreg calls _ mem_constructor_inv)
    as (rs & st & Hrun & Hall & Hinv).
  destruct (mem_streak_step tz Hreg (atTime c) (seconds c) (category c) st
              Hinv) as (r & st' & Hcall & Hget & Hlast & Hstep & _).
  by exists rs, st, r, st'.
Qed.

Lemma mem_streak_invariant_witness :
  ∃ rs st r st',
    MemRun.increaseAll Date.utc [mkStudyCall 864000000 100 None]
                       MemStorage.constructor = Js.Returned (rs, st)
    ∧ MemStorage.increaseStudyTime Date.utc 1123200000 100 (Some "Math") st
      = Js.Returned (r, st')
    ∧ StudyStats.streakDays r = 1.
Proof.
  destruct (mem_streak_invariant Date.utc [mkStudyCall 864000000 100 None]
              (mkStudyCall 1123200000 100 (Some "Math"))
              (fixedOffset_regular 0))
    as (rs & st & r & st' & Hrun & _ & Hcall & Hget & _ & _ & _ & Hstep).
  exists rs, st, r, st'. split; [exact Hrun |]. split; [exact Hcall |].
  injection Hrun as <- <-.
  refine (proj2 (Hstep _ 864000000 eq_refl eq_refl) _).
  vm_compute. reflexivity.
Defined.

(** ** The two stores side by side *)

Section Stores.
Variable tz : Date.zone.

(** The record of the first call on new stores. *)
Lemma first_record_eq (now secs : Z) (cat : option string) :
  plainCategory cat →
  creditedStats tz now secs cat 1 MemStorage.defaultStats
  = StudyStats.mk 1 None secs 7200 36000 1 (Some now)
                  (Some (DbStorage.firstCategory secs cat)).
Proof.
  intros Hplain.
  unfold creditedStats, Aggregator.creditCategory, DbStorage.firstCategory,
    Js.addTo.
  simpl. destruct cat as [c|]; [| done].
  destruct (Js.truthyString c); [| done].
  by rewrite lookup_empty, (Hplain c eq_refl).
Qed.

(** Neither store holds a record and the table never had a row: the two
    methods return the same record. *)
Lemma stores_agree_fresh (now secs : Z) (cat : option string)
    (st : MemStorage.t) :
  MemStorage.getStudyStats st = None →
  Js.int4 secs = true →
  plainCategory cat →
  ∃ r st' db',
    MemStorage.increaseStudyTime tz now secs cat st = Js.Returned (r, st')
    ∧ DbStorage.increaseStudyTime tz now secs cat DbStorage.emptyDb
      = Js.Returned (Some r, db').
Proof.
  intros Hmem Hsecs Hplain. unfold MemStorage.getStudyStats in Hmem.
  rewrite mem_increase_returns. unfold priorStats. rewrite Hmem.
  destruct (db_increase_insert tz now secs cat DbStorage.emptyDb eq_refl
              eq_refl (not_elem_of_nil _) Hsecs) as [-> _].
  eexists _, _, _. split; [reflexivity |]. simpl.
  by rewrite first_record_eq.
Qed.

(** Both stores hold the record [cur], which has no [lastStudyDate]:
    [MemStorage] returns a [streakDays] of 1, [DbStorage] the stored one. *)
Lemma stores_differ_undated (now secs : Z) (cat : option string)
    (st : MemStorage.t) (db : DbStorage.t) (cur : StudyStats.t) :
  MemStorage.getStudyStats st = Some cur →
  DbStorage.getStudyStats db = Some cur →
  uniqueIds db →
  creditFits secs cur →
  StudyStats.lastStudyDate cur = None →
  ∃ m st' d db',
    MemStorage.increaseStudyTime tz now secs cat st = Js.Returned (m, st')
    ∧ DbStorage.increaseStudyTime tz now secs cat db
      = Js.Returned (Some d, db')
    ∧ StudyStats.streakDays m = 1
    ∧ StudyStats.streakDays d = StudyStats.streakDays cur.
Proof.
  intros Hmem Hdb Hids Hfits Hlast.
  destruct (creditFits_int4 tz now secs cat cur Hfits) as [Htotal Hstreak].
  destruct (db_increase_update tz now secs cat db cur Hdb Hids Htotal Hstreak)
    as (l1 & l2 & _ & _ & Hrun).
  eexists _, _, _, _. split; [apply mem_increase_returns |].
  split; [exact Hrun |].
  unfold priorStats. unfold MemStorage.getStudyStats in Hmem.
  rewrite Hmem. simpl. rewrite Hlast. split; reflexivity.
Qed.

End Stores.

(** X21. Both stores hold the record [cur], which has a [lastStudyDate];
    the ids of the table are distinct, and the seconds, an integer, fit:
    the stored total and streak are [int4] values and so are the total
    with the seconds added and the streak plus 1. Then the two methods
    return, and return the same record. *)
Theorem stores_agree_dated (tz : Date.zone) (now secs : Z)
    (cat : option string)
    (st : MemStorage.t) (db : DbStorage.t) (cur : StudyStats.t) :
  MemStorage.getStudyStats st = Some cur →
  DbStorage.getStudyStats db = Some cur →
  uniqueIds db →
  is_Some (StudyStats.lastStudyDate cur) →
  creditFits secs cur →
  ∃ r st' db',
    MemStorage.increaseStudyTime tz now secs cat st = Js.Returned (r, st')
    ∧ DbStorage.increaseStudyTime tz now secs cat db
      = Js.Returned (Some r, db').
Proof.
  intros Hmem Hdb Hids [last Hlast] Hfits.
  destruct (creditFits_int4 tz now secs cat cur Hfits) as [Htotal Hstreak].
  destruct (db_increase_update tz now secs cat db cur Hdb Hids Htotal Hstreak)
    as (l1 & l2 & _ & _ & Hrun).
  eexists _, _, _. split; [apply mem_increase_returns |].
  rewrite Hrun. unfold priorStats. unfold MemStorage.getStudyStats in Hmem.
  rewrite Hmem. simpl. unfold creditedStats. rewrite Hlast. reflexivity.
Qed.

Lemma stores_agree_dated_witness :
  let cur :=
    StudyStats.mk 1 None 50 7200 36000 1 (Some 864000000)
                  (Some {[ "Math" := Js.Num 50 ]}) in
  ∃ r st' db',
    MemStorage.increaseStudyTime Date.utc 950400000 30 (Some "Math")
      (MemStorage.withStats MemStorage.constructor cur)
    = Js.Returned (r, st')
    ∧ DbStorage.increaseStudyTime Date.utc 950400000 30 (Some "Math")
        (DbStorage.mk [cur] 2)
      = Js.Returned (Some r, db').
Proof.
  apply (stores_agree_dated Date.utc 950400000 30 (Some "Math")
           (MemStorage.withStats MemStorage.constructor
              (StudyStats.mk 1 None 50 7200 36000 1 (Some 864000000)
                             (Some {[ "Math" := Js.Num 50 ]})))
           (DbStorage.mk
              [StudyStats.mk 1 None 50 7200 36000 1 (Some 864000000)
                             (Some {[ "Math" := Js.Num 50 ]})] 2)
           (StudyStats.mk 1 None 50 7200 36000 1 (Some 864000000)
                          (Some {[ "Math" := Js.Num 50 ]}))).
  - reflexivity.
  - reflexivity.
  - unfold uniqueIds. simpl. apply NoDup_singleton.
  - by eexists.
  - repeat split; reflexivity.
Defined.

(** C5. The two stores hold the same record, the one [MemStorage] starts
    with and the columns of [study_stats] default to: no [lastStudyDate]
    and a [streakDays] of 0. On [increaseStudyTime(100)]
    [MemStorage] returns a [streakDays] of 1 and [DbStorage] one of 0, so
    the two results differ. *)
Theorem stores_diverge_on_absent_lastStudyDate :
  let st := MemStorage.constructor in
  let db := DbStorage.mk [MemStorage.defaultStats] 2 in
  MemStorage.getStudyStats st = DbStorage.getStudyStats db
  ∧ ∃ m st' d db',
      MemStorage.increaseStudyTime Date.utc 864000000 100 None st
      = Js.Returned (m, st')
      ∧ DbStorage.increaseStudyTime Date.utc 864000000 100 None db
        = Js.Returned (Some d, db')
      ∧ StudyStats.streakDays m = 1
      ∧ StudyStats.streakDays d = 0
      ∧ m ≠ d.
Proof.
  split; [reflexivity |].
  eexists _, _, _, _. split; [apply mem_increase_returns |].
  split; [reflexivity |]. split; [reflexivity |]. split; [reflexivity |].
  intros H. apply (f_equal StudyStats.streakDays) in H. discriminate H.
Qed.

(** C9. [increaseStudyTime] returns a record with the [id], [userId],
    [dailyGoal] and [weeklyGoal] of the record the store held: in
    [MemStorage], which then holds the returned record, on every call;
    in [DbStorage] on every call that returns, and a call returns when
    the ids of the table are distinct and the seconds, an integer, fit
    the columns: the stored total and streak are [int4] values and so are
    the total with the seconds added and the streak plus 1. *)
Theorem increaseStudyTime_frame (tz : Date.zone) (now secs : Z)
    (cat : option string) :
  (∀ (st : MemStorage.t) (s : StudyStats.t),
      MemStorage.getStudyStats st = Some s →
      ∃ r st',
        MemStorage.increaseStudyTime tz now secs cat st = Js.Returned (r, st')
        ∧ MemStorage.getStudyStats st' = Some r
        ∧ StudyStats.id r = StudyStats.id s
        ∧ StudyStats.userId r = StudyStats.userId s
        ∧ StudyStats.dailyGoal r = StudyStats.dailyGoal s
        ∧ StudyStats.weeklyGoal r = StudyStats.weeklyGoal s)
  ∧ (∀ (db : DbStorage.t) (s : StudyStats.t),
        DbStorage.getStudyStats db = Some s →
        uniqueIds db →
        (∀ res db',
            DbStorage.increaseStudyTime tz now secs cat db
            = Js.Returned (res, db') →
            ∃ r, res = Some r
                 ∧ StudyStats.id r = StudyStats.id s
                 ∧ StudyStats.userId r = StudyStats.userId s
                 ∧ StudyStats.dailyGoal r = StudyStats.dailyGoal s
                 ∧ StudyStats.weeklyGoal r = StudyStats.weeklyGoal s)
        ∧ (creditFits secs s →
           ∃ r db',
             DbStorage.increaseStudyTime tz now secs cat db
             = Js.Returned (Some r, db'))).
Proof.
  split.
  - intros st s Hget. eexists _, _.
    split; [apply mem_increase_returns |]. split; [reflexivity |].
    unfold priorStats. unfold MemStorage.getStudyStats in Hget.
    rewrite Hget. simpl. auto.
  - intros db s Hget Hids. split.
    + intros res db' Hrun.
      set (upd := creditedStats tz now secs cat (StudyStats.streakDays s) s).
      destruct (Js.int4 (StudyStats.totalStudyTime upd)) eqn:Htotal;
        [destruct (Js.int4 (StudyStats.streakDays upd)) eqn:Hstreak |].
      * destruct (db_increase_update tz now secs cat db s Hget Hids
                    Htotal Hstreak) as (l1 & l2 & _ & _ & Hrun').
        rewrite Hrun' in Hrun. injection Hrun as <- <-.
        exists upd. simpl. auto.
      * exfalso. revert Hrun. unfold DbStorage.increaseStudyTime.
        rewrite Hget. unfold DbStorage.updateReturning, DbStorage.inRange.
        simpl. rewrite !orNum_zero.
        change (match StudyStats.lastStudyDate s with
                | Some lastStudyDate =>
                    Aggregator.streakAfter tz now lastStudyDate
                      (StudyStats.streakDays s)
                | None => StudyStats.streakDays s
                end) with (StudyStats.streakDays upd).
        rewrite Hstreak, !andb_false_r. discriminate.
      * exfalso. rewrite (db_increase_rejected tz now secs cat db s Hget)
          in Hrun by exact Htotal. discriminate.
    + intros Hfits.
      destruct (creditFits_int4 tz now secs cat s Hfits) as [Htotal Hstreak].
      destruct (db_increase_update tz now secs cat db s Hget Hids
                  Htotal Hstreak) as (l1 & l2 & _ & _ & Hrun).
      eexists _, _. exact Hrun.
Qed.

Lemma increaseStudyTime_frame_witness :
  ∃ r db',
    DbStorage.increaseStudyTime Date.utc 864000000 100 (Some "Math")
      (DbStorage.mk [MemStorage.defaultStats] 2) = Js.Returned (Some r, db')
    ∧ StudyStats.id r = 1
    ∧ StudyStats.userId r = None
    ∧ StudyStats.dailyGoal r = 7200
    ∧ StudyStats.weeklyGoal r = 36000.
Proof.
  destruct (proj2 (increaseStudyTime_frame Date.utc 864000000 100
                     (Some "Math"))
              (DbStorage.mk [MemStorage.defaultStats] 2)
              MemStorage.defaultStats eq_refl
              ltac:(unfold uniqueIds; simpl; apply NoDup_singleton))
    as [Hframe Hreturns].
  destruct (Hreturns ltac:(repeat split; reflexivity)) as (r & db' & Hrun).
  exists r, db'. split; [exact Hrun |].
  destruct (Hframe _ _ Hrun) as (r' & [= <-] & Hid & Huser & Hdaily & Hweekly).
  auto.
Defined.

(** ** Maps in insertion order *)

Section JsMapFacts.
Context {V : Type}.
Implicit Types (m : list (Z * V)) (k j : Z) (v : V).

Lemma jsmap_get_set_eq m k v : JsMap.get k (JsMap.set k v m) = Some v.
Proof.
  induction m as [| [k' v'] m IH]; simpl.
  - by rewrite Z.eqb_refl.
  - destruct (Z.eqb_spec k k') as [-> | Hne]; simpl.
    + by rewrite Z.eqb_refl.
    + destruct (Z.eqb_spec k k'); [done | exact IH].
Qed.

Lemma jsmap_get_set_ne m k j v :
  j ≠ k → JsMap.get j (JsMap.set k v m) = JsMap.get j m.
Proof.
  intros Hne. induction m as [| [k' v'] m IH]; simpl.
  - destruct (Z.eqb_spec j k); [done | reflexivity].
  - destruct (Z.eqb_spec k k') as [-> | Hk]; simpl.
    + destruct (Z.eqb_spec j k'); [done | reflexivity].
    + destruct (Z.eqb_spec j k'); [reflexivity | exact IH].
Qed.

(** [set] on a key that is there adds no key and moves none. *)
Lemma jsmap_set_keys m k v :
  is_Some (JsMap.get k m) → map fst (JsMap.set k v m) = map fst m.
Proof.
  induction m as [| [k' v'] m IH]; simpl.
  - intros [x Hx]. discriminate.
  - destruct (Z.eqb_spec k k') as [-> | Hk]; simpl; [done |].
    intros H. by rewrite IH.
Qed.

End JsMapFacts.

(** ** Sorting newest first *)

Section SortFacts.
Context {A : Type} (key : A → Z).

Lemma sortInsert_perm (x : A) (l : list A) :
  sortInsert (keyDesc key) x l ≡ₚ x :: l.
Proof.
  induction l as [| y l IH]; simpl; [done |].
  destruct (0 <? keyDesc key x y); [| done].
  rewrite IH. apply Permutation_swap.
Qed.

Lemma jsSort_perm (l : list A) : jsSort (keyDesc key) l ≡ₚ l.
Proof.
  induction l as [| x l IH]; simpl; [done |].
  by rewrite sortInsert_perm, IH.
Qed.

Lemma sortInsert_sorted (x : A) (l : list A) :
  StronglySorted (newestFirst key) l →
  StronglySorted (newestFirst key) (sortInsert (keyDesc key) x l).
Proof.
  induction 1 as [| y l Hl IH Hy]; simpl.
  - repeat constructor.
  - destruct (Z.ltb_spec 0 (keyDesc key x y)) as [Hlt | Hge];
      unfold keyDesc in Hlt || unfold keyDesc in Hge.
    + constructor; [exact IH |].
      rewrite sortInsert_perm. constructor; [unfold newestFirst; lia | exact Hy].
    + constructor; [by constructor |].
      constructor; [unfold newestFirst; lia |].
      eapply Forall_impl; [exact Hy |]. unfold newestFirst. intros; lia.
Qed.

Lemma jsSort_sorted (l : list A) :
  StronglySorted (newestFirst key) (jsSort (keyDesc key) l).
Proof.
  induction l as [| x l IH]; simpl; [constructor |].
  by apply sortInsert_sorted.
Qed.

End SortFacts.

(** ** Tasks and study sessions in [MemStorage] *)

(** C7. [updateTask] on an id that the task map does not hold returns
    [undefined] and leaves the storage as it was. On an id it holds, it
    returns the stored record with each supplied field overwritten and each
    other field, [id] and [createdAt] included, as before; the map then
    holds the returned record under that id, the other ids keep their
    records, and the keys of the map are the same. *)
Theorem updateTask_merges_or_misses (id : Z) (updateData : PartialTask.t)
    (st : MemStorage.t) :
  (MemStorage.getTask id st = None →
   MemStorage.updateTask id updateData st = (None, st))
  ∧ (∀ task : Task.t,
        MemStorage.getTask id st = Some task →
        ∃ updated st',
          MemStorage.updateTask id updateData st = (Some updated, st')
          ∧ MemStorage.getTask id st' = Some updated
          ∧ (∀ j, j ≠ id → MemStorage.getTask j st' = MemStorage.getTask j st)
          ∧ map fst (MemStorage.tasksMap st') = map fst (MemStorage.tasksMap st)
          ∧ Task.id updated = Task.id task
          ∧ Task.createdAt updated = Task.createdAt task
          ∧ Task.text updated
            = default (Task.text task) (PartialTask.text updateData)
          ∧ Task.completed updated
            = default (Task.completed task) (PartialTask.completed updateData)
          ∧ Task.dueDate updated
            = default (Task.dueDate task) (PartialTask.dueDate updateData)).
Proof.
  unfold MemStorage.getTask, MemStorage.updateTask. split.
  - intros ->. reflexivity.
  - intros task Hget. rewrite Hget. eexists _, _. split; [reflexivity |].
    simpl. split; [apply jsmap_get_set_eq |].
    split; [intros j Hj; by apply jsmap_get_set_ne |].
    split; [apply jsmap_set_keys; eauto |].
    destruct updateData as [[?|] [?|] [?|]]; simpl; auto 10.
Qed.

Lemma updateTask_merges_or_misses_witness :
  MemStorage.updateTask 7 (PartialTask.mk None (Some true) None)
                        MemStorage.constructor
  = (None, MemStorage.constructor)
  ∧ ∃ updated st',
      MemStorage.updateTask 1 (PartialTask.mk None (Some true) None)
        (snd (MemStorage.createTask 5
                (InsertTask.mk "Buy milk" None None) MemStorage.constructor))
      = (Some updated, st')
      ∧ Task.text updated = "Buy milk"
      ∧ Task.completed updated = true.
Proof.
  split.
  - apply (proj1 (updateTask_merges_or_misses 7
                    (PartialTask.mk None (Some true) None)
                    MemStorage.constructor)).
    reflexivity.
  - destruct (proj2 (updateTask_merges_or_misses 1
                       (PartialTask.mk None (Some true) None)
                       (snd (MemStorage.createTask 5
                               (InsertTask.mk "Buy milk" None None)
                               MemStorage.constructor)))
                    (Task.mk 1 "Buy milk" false None 5) eq_refl)
      as (updated & st' & Hrun & _ & _ & _ & _ & _ & Htext & Hdone & _).
    exists updated, st'. auto.
Defined.

Lemma filter_inRange (startDate endDate : Z) (l : list StudySession.t) :
  List.filter (MemStorage.inRange startDate endDate) l
  = filter (λ s, startDate ≤ StudySession.startTime s ≤ endDate) l.
Proof.
  induction l as [| s l IH]; simpl; [done |].
  rewrite filter_cons, <- IH. unfold MemStorage.inRange.
  destruct (Z.leb_spec startDate (StudySession.startTime s)),
    (Z.leb_spec (StudySession.startTime s) endDate); simpl;
    case_decide; (done || lia).
Qed.

(** C8. [getStudySessionsByDateRange(start, end)] returns the stored
    sessions with [start ≤ startTime ≤ end], each as often as it is
    stored and no other, in an order where no session starts after one
    that comes before it; with [end < start] it returns the empty array. *)
Theorem getStudySessionsByDateRange_inclusive (startDate endDate : Z)
    (st : MemStorage.t) :
  let stored := JsMap.values (MemStorage.studySessionsMap st) in
  let result := MemStorage.getStudySessionsByDateRange startDate endDate st in
  result ≡ₚ filter (λ s, startDate ≤ StudySession.startTime s ≤ endDate) stored
  ∧ (∀ s, s ∈ result
          ↔ s ∈ stored ∧ startDate ≤ StudySession.startTime s ≤ endDate)
  ∧ StronglySorted (newestFirst StudySession.startTime) result
  ∧ (endDate < startDate → result = []).
Proof.
  intros stored result.
  assert (Hperm : result ≡ₚ filter
            (λ s, startDate ≤ StudySession.startTime s ≤ endDate) stored).
  { subst result. unfold MemStorage.getStudySessionsByDateRange.
    unfold MemStorage.cmpStartTime. rewrite jsSort_perm.
    by rewrite filter_inRange. }
  split; [exact Hperm |]. split; [| split].
  - intros s. rewrite Hperm, list_elem_of_filter. tauto.
  - apply jsSort_sorted.
  - intros Hrev. apply Permutation_nil_r. rewrite Hperm.
    clear Hperm. induction stored as [| s l IH]; [done |].
    rewrite filter_cons. case_decide; [lia | exact IH].
Qed.

Lemma getStudySessionsByDateRange_inclusive_witness :
  MemStorage.getStudySessionsByDateRange 20 10
    (snd (MemStorage.createStudySession 15
            (InsertStudySession.mk None None None None "pomodoro" None None
                                   None)
            MemStorage.constructor)) = [].
Proof.
  apply (getStudySessionsByDateRange_inclusive 20 10). lia.
Defined.

(** ** The singletons of [MemStorage] *)

Section Singletons.
Variable tz : Date.zone.

(** What a call does to [timerSettingsInstance]. *)
Lemma step_timerSettings (st : MemStorage.t) (o : MemOps.op) :
  MemStorage.timerSettingsInstance (MemOps.step tz st o)
  = match o with
    | MemOps.UpdateTimerSettings settings =>
        Some (PartialTimerSettings.merge
                (default MemStorage.defaultSettings
                         (MemStorage.timerSettingsInstance st))
                settings)
    | _ => MemStorage.timerSettingsInstance st
    end.
Proof.
  destruct o; simpl; try reflexivity.
  - unfold MemStorage.updateTask. by destruct (JsMap.get _ _).
  - by destruct (MemStorage.timerSettingsInstance st).
  - unfold MemStorage.updateStudySession. by destruct (JsMap.get _ _).
  - by rewrite mem_increase_returns.
Qed.

(** A call never clears [studyStatsInstance]. *)
Lemma step_studyStats (st : MemStorage.t) (o : MemOps.op) :
  is_Some (MemStorage.studyStatsInstance st) →
  is_Some (MemStorage.studyStatsInstance (MemOps.step tz st o)).
Proof.
  intros Hs. destruct o; simpl; try done.
  - unfold MemStorage.updateTask. by destruct (JsMap.get _ _).
  - unfold MemStorage.updateStudySession. by destruct (JsMap.get _ _).
  - rewrite mem_increase_returns. simpl. eauto.
Qed.

Lemma foldl_step_present (ops : list MemOps.op) (st : MemStorage.t) :
  is_Some (MemStorage.studyStatsInstance st) →
  is_Some (MemStorage.timerSettingsInstance st) →
  is_Some (MemStorage.studyStatsInstance (foldl (MemOps.step tz) st ops))
  ∧ is_Some (MemStorage.timerSettingsInstance (foldl (MemOps.step tz) st ops)).
Proof.
  revert st. induction ops as [| o ops IH]; intros st Hs Ht; simpl; [done |].
  apply IH; [by apply step_studyStats |].
  rewrite step_timerSettings. destruct o; simpl; eauto.
Qed.

(** The two keys stay missing while no call supplies them. *)
Lemma foldl_step_background (ops : list MemOps.op) (st : MemStorage.t)
    (s : TimerSettings.t) :
  MemStorage.timerSettingsInstance st = Some s →
  TimerSettings.backgroundImage s = None →
  TimerSettings.useCustomBackground s = None →
  Forall (λ o, MemOps.suppliesBackground o = false) ops →
  ∃ s', MemStorage.timerSettingsInstance (foldl (MemOps.step tz) st ops)
        = Some s'
        ∧ TimerSettings.backgroundImage s' = None
        ∧ TimerSettings.useCustomBackground s' = None.
Proof.
  revert st s. induction ops as [| o ops IH]; intros st s Hst Hb Hu Hops;
    simpl; [eauto |].
  apply Forall_cons in Hops as [Ho Hops].
  pose proof (step_timerSettings st o) as Hstep.
  destruct o; try (rewrite Hst in Hstep; by eapply IH).
  rewrite Hst in Hstep. simpl in Hstep, Ho.
  apply orb_false_iff in Ho as [Ho1 Ho2].
  apply bool_decide_eq_false in Ho1, Ho2.
  eapply IH; [exact Hstep | | | exact Hops]; simpl.
  - rewrite Hb. destruct (PartialTimerSettings.backgroundImage settings);
      [exfalso; eauto | reflexivity].
  - rewrite Hu.
    destruct (PartialTimerSettings.useCustomBackground settings);
      [exfalso; eauto | reflexivity].
Qed.

End Singletons.

(** C6, as the code has it. After any sequence of calls on a new
    [MemStorage], the empty one included, [getStudyStats] and
    [getTimerSettings] return a record; before any call they return the
    default records of the constructor. [updateStudyStats] and
    [updateTimerSettings] return the supplied fields merged over the
    stored record, or over the defaults if none is stored, and the one
    field of the singleton then holds the returned record. *)
Theorem mem_singletons_present (tz : Date.zone) (ops : list MemOps.op) :
  (is_Some (MemStorage.getStudyStats (MemOps.run tz ops))
   ∧ is_Some (MemStorage.getTimerSettings (MemOps.run tz ops)))
  ∧ (MemStorage.getStudyStats (MemOps.run tz []) = Some MemStorage.defaultStats
     ∧ MemStorage.getTimerSettings (MemOps.run tz [])
       = Some MemStorage.defaultSettings)
  ∧ (∀ (stats : PartialStudyStats.t) (st : MemStorage.t),
        ∃ r st',
          MemStorage.updateStudyStats stats st = (r, st')
          ∧ MemStorage.getStudyStats st' = Some r
          ∧ r = match MemStorage.getStudyStats st with
                | None => PartialStudyStats.merge MemStorage.defaultStats stats
                | Some current => PartialStudyStats.merge current stats
                end)
  ∧ (∀ (settings : PartialTimerSettings.t) (st : MemStorage.t),
        ∃ r st',
          MemStorage.updateTimerSettings settings st = (r, st')
          ∧ MemStorage.getTimerSettings st' = Some r
          ∧ r = match MemStorage.getTimerSettings st with
                | None =>
                    PartialTimerSettings.merge MemStorage.defaultSettings
                                               settings
                | Some current => PartialTimerSettings.merge current settings
                end).
Proof.
  split; [| split; [| split]].
  - apply foldl_step_present; simpl; eauto.
  - split; reflexivity.
  - intros stats st. eexists _, _. split; [reflexivity |].
    split; reflexivity.
  - intros settings st. eexists _, _. split; [reflexivity |].
    split; reflexivity.
Qed.

(** C6 as the specification words it does not hold: before any update a
    new [MemStorage] reports neither singleton absent. *)
Lemma mem_singletons_not_absent_at_start :
  ¬ (MemStorage.getStudyStats MemStorage.constructor = None
     ∨ MemStorage.getTimerSettings MemStorage.constructor = None).
Proof. intros [H | H]; discriminate H. Qed.

(** C10. The default [TimerSettings] of [MemStorage] lack
    [backgroundImage] and [useCustomBackground]: a new [MemStorage] returns
    them from [getTimerSettings] as [undefined], not as the [null] and
    [false] of the schema; so does [updateTimerSettings] when it builds the
    defaults for an absent singleton and is not given the two keys; and
    they stay [undefined] through any calls that do not supply them. *)
Theorem mem_default_settings_lack_background (tz : Date.zone) :
  (∃ s, MemStorage.getTimerSettings MemStorage.constructor = Some s
        ∧ TimerSettings.backgroundImage s = None
        ∧ TimerSettings.useCustomBackground s = None
        ∧ TimerSettings.backgroundImage s
          ≠ Some TimerSettings.schemaBackgroundImage
        ∧ TimerSettings.useCustomBackground s
          ≠ Some TimerSettings.schemaUseCustomBackground)
  ∧ (∀ (settings : PartialTimerSettings.t) (st : MemStorage.t),
        MemStorage.getTimerSettings st = None →
        PartialTimerSettings.backgroundImage settings = None →
        PartialTimerSettings.useCustomBackground settings = None →
        ∃ r st',
          MemStorage.updateTimerSettings settings st = (r, st')
          ∧ MemStorage.getTimerSettings st' = Some r
          ∧ TimerSettings.backgroundImage r = None
          ∧ TimerSettings.useCustomBackground r = None)
  ∧ (∀ ops : list MemOps.op,
        Forall (λ o, MemOps.suppliesBackground o = false) ops →
        ∃ s, MemStorage.getTimerSettings (MemOps.run tz ops) = Some s
             ∧ TimerSettings.backgroundImage s = None
             ∧ TimerSettings.useCustomBackground s = None).
Proof.
  split; [| split].
  - eexists. split; [reflexivity |]. simpl. repeat split; discriminate.
  - intros settings st Hget Hb Hu. unfold MemStorage.getTimerSettings in Hget.
    unfold MemStorage.updateTimerSettings. rewrite Hget.
    eexists _, _. split; [reflexivity |]. split; [reflexivity |].
    simpl. by rewrite Hb, Hu.
  - intros ops Hops.
    by eapply (foldl_step_background tz ops MemStorage.constructor).
Qed.

Lemma mem_default_settings_lack_background_witness :
  ∃ s, MemStorage.getTimerSettings
         (MemOps.run Date.utc
            [MemOps.UpdateTimerSettings
               (PartialTimerSettings.mk None None None None (Some 50) None None
                  None None None None None None None None None None);
             MemOps.IncreaseStudyTime 864000000 100 (Some "Math")]) = Some s
       ∧ TimerSettings.backgroundImage s = None
       ∧ TimerSettings.useCustomBackground s = None.
Proof.
  apply (proj2 (proj2 (mem_default_settings_lack_background Date.utc))).
  repeat constructor.
Defined.

(** ** The route [PUT /api/study-sessions/:id] *)

Section Put.
Variable tz : Date.zone.

Lemma creditDue_true (u : StudySession.t) :
  Routes.creditDue u = true
  ↔ StudySession.completed u = true
    ∧ ∃ d, StudySession.duration u = Some d ∧ 0 < d.
Proof.
  unfold Routes.creditDue. rewrite andb_true_iff.
  destruct (StudySession.duration u) as [d|]; simpl.
  - rewrite andb_true_iff, negb_true_iff, Z.eqb_neq, Z.ltb_lt. split.
    + intros (Hc & _ & Hd). eauto.
    + intros (Hc & d' & [= <-] & Hd). repeat split; [done | lia | done].
  - split; [intros [_ H]; discriminate | intros (_ & d & H & _); discriminate].
Qed.

(** The calls the handler makes, by the session it finds. *)
Lemma put_calls (now id : Z) (data : PartialStudySession.t)
    (storage : MemStorage.t) :
  (Routes.putStudySession tz now (Some id) data storage).2
  = match MemStorage.getStudySession id storage with
    | None => []
    | Some old =>
        let updated := PartialStudySession.merge old data in
        if Routes.creditDue updated
        then [Routes.mkCall (default 0 (StudySession.duration updated))
                            (Routes.firstTag updated)]
        else []
    end.
Proof.
  unfold Routes.putStudySession, MemStorage.updateStudySession,
    MemStorage.getStudySession.
  destruct (JsMap.get id (MemStorage.studySessionsMap storage)) as [old|];
    [| reflexivity].
  destruct (Routes.creditDue (PartialStudySession.merge old data));
    [| reflexivity].
  by rewrite mem_increase_returns.
Qed.

(** The study stats the handler leaves, by the calls it made. *)
Lemma put_stats (now : Z) (id : option Z) (data : PartialStudySession.t)
    (storage : MemStorage.t) :
  MemStorage.getStudyStats
    (Routes.putStudySession tz now id data storage).1.2
  = match (Routes.putStudySession tz now id data storage).2 with
    | [] => MemStorage.getStudyStats storage
    | c :: _ =>
        Some (creditedStats tz now (Routes.callSeconds c)
                (Routes.callCategory c) 1 (priorStats storage))
    end.
Proof.
  unfold Routes.putStudySession, MemStorage.updateStudySession.
  destruct id as [id|]; [| reflexivity].
  destruct (JsMap.get id (MemStorage.studySessionsMap storage)) as [old|];
    [| reflexivity].
  destruct (Routes.creditDue (PartialStudySession.merge old data));
    [| reflexivity].
  by rewrite mem_increase_returns.
Qed.

End Put.

Lemma firstTag_head (u : StudySession.t) :
  Routes.firstTag u = head (default [] (StudySession.tags u)).
Proof.
  unfold Routes.firstTag. by destruct (StudySession.tags u) as [[| tag l]|].
Qed.

(** C4, as the code has it. The handler calls [increaseStudyTime] at most
    once, and calls it with [(d, c)] exactly when it finds the session and
    the record that results from the update has [completed = true] and a
    [duration] of [d > 0], whatever [completed] was before; [c] is the first
    of its tags, or no category without tags. Without a call the study
    stats stay as they were; with one, [d] is added to the total and no
    category other than [c] changes. Completing a session of 1800 seconds
    tagged Math and Review calls [increaseStudyTime(1800, "Math")] and
    leaves [{Math: 1800}]. *)
Theorem put_credits_first_tag (tz : Date.zone) (now id : Z)
    (data : PartialStudySession.t) (storage : MemStorage.t) :
  let out := Routes.putStudySession tz now (Some id) data storage in
  (length out.2 ≤ 1)%nat
  ∧ (∀ (d : Z) (c : option string),
        out.2 = [Routes.mkCall d c]
        ↔ ∃ old,
            MemStorage.getStudySession id storage = Some old
            ∧ StudySession.completed (PartialStudySession.merge old data)
              = true
            ∧ StudySession.duration (PartialStudySession.merge old data)
              = Some d
            ∧ 0 < d
            ∧ c = head (default []
                          (StudySession.tags
                             (PartialStudySession.merge old data))))
  ∧ (out.2 = [] →
     MemStorage.getStudyStats out.1.2 = MemStorage.getStudyStats storage)
  ∧ (∀ (d : Z) (c : option string),
        out.2 = [Routes.mkCall d c] →
        ∃ r, MemStorage.getStudyStats out.1.2 = Some r
             ∧ StudyStats.totalStudyTime r
               = StudyStats.totalStudyTime (priorStats storage) + d
             ∧ ∀ k : string, c ≠ Some k →
                 StudyStats.categories r !! k
                 = StudyStats.categories (priorStats storage) !! k)
  ∧ (Routes.putStudySession tz now None data storage).2 = []
  ∧ (Routes.putStudySession Date.utc 864003600 (Some 1)
       (PartialStudySession.mk None None None (Some (Some 1800)) None None
                               None (Some true))
       (snd (MemStorage.createStudySession 864000000
               (InsertStudySession.mk None None None None "pomodoro"
                  (Some (Some ["Math"; "Review"])) None None)
               MemStorage.constructor))).2
    = [Routes.mkCall 1800 (Some "Math")]
  ∧ StudyStats.timeByCategory <$> MemStorage.getStudyStats completedOnce
    = Some (Some {[ "Math" := Js.Num 1800 ]}).
Proof.
  intros out.
  assert (Hcalls := put_calls tz now id data storage). fold out in Hcalls.
  assert (Hstats := put_stats tz now (Some id) data storage).
  fold out in Hstats.
  split; [| split; [| split; [| split; [| split; [| split]]]]].
  - rewrite Hcalls. destruct (MemStorage.getStudySession id storage);
      [| simpl; lia].
    simpl. destruct (Routes.creditDue _); simpl; lia.
  - intros d c. rewrite Hcalls.
    destruct (MemStorage.getStudySession id storage) as [old|];
      cbv beta iota zeta.
    + destruct (Routes.creditDue (PartialStudySession.merge old data))
        eqn:Hdue.
      * apply creditDue_true in Hdue as (Hc & d' & Hd & Hpos).
        rewrite Hd, firstTag_head. cbn [default]. split.
        -- intros [= <- <-]. exists old. by rewrite Hd.
        -- intros (old' & [= <-] & _ & Hd' & _ & ->).
           rewrite Hd in Hd'. by injection Hd' as ->.
      * split; [discriminate |].
        intros (old' & [= <-] & Hc & Hd & Hpos & _).
        assert (Routes.creditDue (PartialStudySession.merge old data) = true)
          by (apply creditDue_true; eauto).
        congruence.
    + split; [discriminate | intros (old & H & _); discriminate].
  - intros Hnil. by rewrite Hstats, Hnil.
  - intros d c Hone. rewrite Hstats, Hone. simpl.
    eexists. split; [reflexivity |]. split; [reflexivity |].
    intros k Hk. unfold StudyStats.categories. simpl.
    unfold Aggregator.creditCategory.
    destruct c as [c|]; [| reflexivity].
    destruct (Js.truthyString c); [| reflexivity].
    apply lookup_insert_ne. congruence.
  - reflexivity.
  - reflexivity.
  - reflexivity.
Qed.

Lemma put_credits_first_tag_witness :
  MemStorage.getStudyStats
    (Routes.putStudySession Date.utc 5 (Some 9) PartialStudySession.empty
                            MemStorage.constructor).1.2
  = MemStorage.getStudyStats MemStorage.constructor.
Proof.
  apply (put_credits_first_tag Date.utc 5 9 PartialStudySession.empty
                               MemStorage.constructor).
  reflexivity.
Defined.

(** C4 as the specification words it does not hold: a request that only
    edits the notes of a session completed before is credited again. *)
Lemma put_credits_completed_session_again :
  ¬ creditsOnTransition Date.utc 864007200 1
      (PartialStudySession.mk None None None None None None
                              (Some (Some "reviewed")) None)
      completedOnce.
Proof.
  intros [Hcalls _].
  destruct Hcalls as (old & d & Hget & Hbefore & _).
  - vm_compute. discriminate.
  - vm_compute in Hget. injection Hget as <-. discriminate Hbefore.
Qed.

(** ** More on maps in insertion order *)

Lemma filter_all {A : Type} (P : A → Prop) `{!∀ x, Decision (P x)}
    (l : list A) :
  Forall P l → filter P l = l.
Proof.
  induction 1 as [| x l Hx Hl IH]; [done |].
  by rewrite filter_cons_True, IH.
Qed.

Section JsMapMore.
Context {V : Type}.
Implicit Types (m : list (Z * V)) (k j : Z) (v : V).

Lemma jsmap_get_None m k : JsMap.get k m = None ↔ k ∉ map fst m.
Proof.
  induction m as [| [k' v'] m IH]; simpl.
  - split; [intros _; apply not_elem_of_nil | done].
  - rewrite not_elem_of_cons.
    destruct (Z.eqb_spec k k'); [split; [done | intros [? _]; done] |].
    rewrite IH. tauto.
Qed.

Lemma jsmap_get_Some m k v :
  NoDup (map fst m) → JsMap.get k m = Some v ↔ (k, v) ∈ m.
Proof.
  induction m as [| [k' v'] m IH]; simpl; intros Hnd.
  - split; [done | intros H; by apply elem_of_nil in H].
  - apply NoDup_cons in Hnd as [Hk' Hnd]. rewrite elem_of_cons.
    destruct (Z.eqb_spec k k') as [-> | Hne].
    + split; [intros [= ->]; by left |].
      intros [[= ->] | Hin]; [done |].
      exfalso. apply Hk'. apply list_elem_of_fmap. by exists (k', v).
    + rewrite (IH Hnd). split; [by right |].
      intros [[= -> ->] | Hin]; done.
Qed.

(** [set] on a key that is not there puts it last. *)
Lemma jsmap_set_absent m k v :
  JsMap.get k m = None → JsMap.set k v m = m ++ [(k, v)].
Proof.
  induction m as [| [k' v'] m IH]; simpl; [done |].
  destruct (Z.eqb_spec k k'); [done |]. intros H. by rewrite IH.
Qed.

Lemma jsmap_set_set m k v v' :
  JsMap.set k v' (JsMap.set k v m) = JsMap.set k v' m.
Proof.
  induction m as [| [k' w] m IH]; simpl.
  - by rewrite Z.eqb_refl.
  - destruct (Z.eqb_spec k k') as [-> | Hne]; simpl.
    + by rewrite Z.eqb_refl.
    + destruct (Z.eqb_spec k k'); [done |]. by rewrite IH.
Qed.

Lemma jsmap_set_same m k v : JsMap.get k m = Some v → JsMap.set k v m = m.
Proof.
  induction m as [| [k' w] m IH]; simpl; [done |].
  destruct (Z.eqb_spec k k') as [-> | Hne]; [by intros [= ->] |].
  intros H. by rewrite IH.
Qed.

Lemma jsmap_set_Forall (P : Z * V → Prop) m k v :
  Forall P m → P (k, v) → Forall P (JsMap.set k v m).
Proof.
  intros Hm Hkv. induction Hm as [| [k' v'] m Hp Hm IH]; simpl.
  - by constructor.
  - destruct (k =? k'); constructor; done.
Qed.

Lemma jsmap_set_NoDup m k v :
  NoDup (map fst m) → NoDup (map fst (JsMap.set k v m)).
Proof.
  intros Hnd. destruct (JsMap.get k m) as [w|] eqn:Hget.
  - by rewrite jsmap_set_keys by eauto.
  - rewrite jsmap_set_absent by done. rewrite map_app. simpl.
    apply NoDup_app. split; [done |]. split; [| apply NoDup_singleton].
    intros j Hj. rewrite list_elem_of_singleton. intros ->.
    by apply jsmap_get_None in Hget.
Qed.

(** With distinct keys [remove] keeps the entries of the other keys. *)
Lemma jsmap_remove_filter m k :
  NoDup (map fst m) → JsMap.remove k m = filter (λ kv, kv.1 ≠ k) m.
Proof.
  induction m as [| [k' v'] m IH]; simpl; intros Hnd; [done |].
  apply NoDup_cons in Hnd as [Hk' Hnd]. rewrite filter_cons. simpl.
  destruct (Z.eqb_spec k k') as [-> | Hne].
  - case_decide; [done |]. symmetry. apply filter_all.
    apply Forall_forall. intros [j w] Hin Heq. simpl in Heq. subst j.
    apply Hk'. apply list_elem_of_fmap. by exists (k', w).
  - case_decide; [| congruence]. by rewrite IH.
Qed.

Lemma jsmap_remove_keys m k j :
  j ∈ map fst (JsMap.remove k m) → j ∈ map fst m.
Proof.
  induction m as [| [k' v'] m IH]; simpl; [done |].
  destruct (k =? k'); simpl; rewrite ?elem_of_cons; [by right |].
  intros [-> | Hin]; [by left | right; by apply IH].
Qed.

Lemma jsmap_remove_NoDup m k :
  NoDup (map fst m) → NoDup (map fst (JsMap.remove k m)).
Proof.
  induction m as [| [k' v'] m IH]; simpl; [done |].
  rewrite NoDup_cons. intros [Hk' Hnd].
  destruct (k =? k'); simpl; [done |].
  apply NoDup_cons. split; [| by apply IH].
  intros Hin. by apply Hk', (jsmap_remove_keys m k).
Qed.

Lemma jsmap_remove_Forall (P : Z * V → Prop) m k :
  Forall P m → Forall P (JsMap.remove k m).
Proof.
  induction 1 as [| [k' v'] m Hp Hm IH]; simpl; [done |].
  destruct (k =? k'); [done | by constructor].
Qed.

Lemma jsmap_get_remove_eq m k :
  NoDup (map fst m) → JsMap.get k (JsMap.remove k m) = None.
Proof.
  intros Hnd. apply jsmap_get_None. rewrite jsmap_remove_filter by done.
  intros Hin. apply list_elem_of_fmap in Hin as ([j w] & -> & Hin).
  apply list_elem_of_filter in Hin as [Hne _]. done.
Qed.

Lemma jsmap_get_remove_ne m k j :
  j ≠ k → JsMap.get j (JsMap.remove k m) = JsMap.get j m.
Proof.
  intros Hne. induction m as [| [k' v'] m IH]; simpl; [done |].
  destruct (Z.eqb_spec k k') as [-> | Hk]; simpl.
  - destruct (Z.eqb_spec j k'); done.
  - destruct (Z.eqb_spec j k'); done.
Qed.

Lemma jsmap_remove_absent m k : JsMap.get k m = None → JsMap.remove k m = m.
Proof.
  induction m as [| [k' v'] m IH]; simpl; [done |].
  destruct (Z.eqb_spec k k'); [done |]. intros H. by rewrite IH.
Qed.

End JsMapMore.

(** ** The ids of [MemStorage] *)

Section Keyed.
Context {V : Type} (idOf : V → Z).
Implicit Types (m : list (Z * V)) (k next : Z) (v : V).

Lemma keyed_get m next k v :
  keyed idOf next m → JsMap.get k m = Some v → k < next ∧ idOf v = k.
Proof.
  intros [Hnd Hall] Hget. apply jsmap_get_Some in Hget; [| done].
  rewrite Forall_forall in Hall. apply (Hall _ Hget).
Qed.

Lemma keyed_fresh m next k :
  keyed idOf next m → next ≤ k → JsMap.get k m = None.
Proof.
  intros Hk Hle. destruct (JsMap.get k m) as [v|] eqn:Hget; [| done].
  destruct (keyed_get _ _ _ _ Hk Hget). lia.
Qed.

Lemma keyed_set_fresh m next v :
  keyed idOf next m → idOf v = next →
  keyed idOf (next + 1) (JsMap.set next v m).
Proof.
  intros Hk Hid. destruct Hk as [Hnd Hall]. split.
  - by apply jsmap_set_NoDup.
  - apply jsmap_set_Forall; [| simpl; lia].
    eapply Forall_impl; [exact Hall |]. simpl. intros; lia.
Qed.

Lemma keyed_set_present m next k v old :
  keyed idOf next m → JsMap.get k m = Some old → idOf v = k →
  keyed idOf next (JsMap.set k v m).
Proof.
  intros Hk Hget Hid. destruct (keyed_get _ _ _ _ Hk Hget) as [Hlt _].
  destruct Hk as [Hnd Hall]. split.
  - by apply jsmap_set_NoDup.
  - by apply jsmap_set_Forall.
Qed.

Lemma keyed_remove m next k :
  keyed idOf next m → keyed idOf next (JsMap.remove k m).
Proof.
  intros [Hnd Hall]. split;
    [by apply jsmap_remove_NoDup | by apply jsmap_remove_Forall].
Qed.

End Keyed.

Section MemIds.
Variable tz : Date.zone.

Lemma step_memIdsInv (st : MemStorage.t) (o : MemOps.op) :
  memIdsInv st → memIdsInv (MemOps.step tz st o).
Proof.
  intros [Ht Hs]. destruct o; simpl.
  - split; [| exact Hs]. simpl. by apply keyed_set_fresh.
  - unfold MemStorage.updateTask.
    destruct (JsMap.get id (MemStorage.tasksMap st)) as [task|] eqn:Hget;
      [| by split].
    split; [| exact Hs]. simpl.
    eapply keyed_set_present; [exact Ht | exact Hget |].
    simpl. by destruct (keyed_get _ _ _ _ _ Ht Hget).
  - split; [| exact Hs]. simpl. by apply keyed_remove.
  - by split.
  - split; [exact Ht |]. simpl. by apply keyed_set_fresh.
  - unfold MemStorage.updateStudySession.
    destruct (JsMap.get id (MemStorage.studySessionsMap st)) as [s|] eqn:Hget;
      [| by split].
    split; [exact Ht |]. simpl.
    eapply keyed_set_present; [exact Hs | exact Hget |].
    simpl. by destruct (keyed_get _ _ _ _ _ Hs Hget).
  - split; [exact Ht |]. simpl. by apply keyed_remove.
  - by split.
  - rewrite mem_increase_returns. by split.
Qed.

Lemma foldl_step_memIdsInv (ops : list MemOps.op) (st : MemStorage.t) :
  memIdsInv st → memIdsInv (foldl (MemOps.step tz) st ops).
Proof.
  revert st. induction ops as [| o ops IH]; intros st Hinv; simpl; [done |].
  by apply IH, step_memIdsInv.
Qed.

Lemma run_memIdsInv (ops : list MemOps.op) : memIdsInv (MemOps.run tz ops).
Proof.
  apply foldl_step_memIdsInv. split; split; simpl; constructor.
Qed.

(** No call lowers a counter. *)
Lemma step_counters (st : MemStorage.t) (o : MemOps.op) :
  MemStorage.taskId st ≤ MemStorage.taskId (MemOps.step tz st o)
  ∧ MemStorage.sessionId st ≤ MemStorage.sessionId (MemOps.step tz st o).
Proof.
  destruct o; simpl; try lia.
  - unfold MemStorage.updateTask. destruct (JsMap.get _ _); simpl; lia.
  - unfold MemStorage.updateStudySession.
    destruct (JsMap.get _ _); simpl; lia.
  - rewrite mem_increase_returns. simpl. lia.
Qed.

Lemma foldl_step_counters (ops : list MemOps.op) (st : MemStorage.t) :
  MemStorage.taskId st ≤ MemStorage.taskId (foldl (MemOps.step tz) st ops)
  ∧ MemStorage.sessionId st
    ≤ MemStorage.sessionId (foldl (MemOps.step tz) st ops).
Proof.
  revert st. induction ops as [| o ops IH]; intros st; simpl; [lia |].
  pose proof (step_counters st o). pose proof (IH (MemOps.step tz st o)). lia.
Qed.

End MemIds.

(** X1. After any calls on a new [MemStorage], every stored task and every
    stored study session is filed under its own [id], the keys are distinct,
    and each is below the next id the storage will give out. *)
Theorem mem_records_filed_under_own_id (tz : Date.zone) (ops : list MemOps.op) :
  let st := MemOps.run tz ops in
  NoDup (map fst (MemStorage.tasksMap st))
  ∧ NoDup (map fst (MemStorage.studySessionsMap st))
  ∧ (∀ (id : Z) (task : Task.t),
        MemStorage.getTask id st = Some task →
        Task.id task = id ∧ id < MemStorage.taskId st)
  ∧ (∀ (id : Z) (session : StudySession.t),
        MemStorage.getStudySession id st = Some session →
        StudySession.id session = id ∧ id < MemStorage.sessionId st).
Proof.
  intros st. destruct (run_memIdsInv tz ops) as [Ht Hs]. fold st in Ht, Hs.
  split; [apply Ht |]. split; [apply Hs |]. split.
  - intros id task Hget.
    destruct (keyed_get _ _ _ _ _ Ht Hget). by split.
  - intros id session Hget.
    destruct (keyed_get _ _ _ _ _ Hs Hget). by split.
Qed.

(** X2. An id is never given out twice: a task created after another one,
    whatever calls lie between them, deletions included, has a larger [id];
    so has a study session. *)
Theorem mem_ids_never_reused (tz : Date.zone) (ops1 ops2 : list MemOps.op)
    (now1 now2 : Z) :
  (∀ (i1 i2 : InsertTask.t),
      Task.id (MemStorage.createTask now1 i1 (MemOps.run tz ops1)).1
      < Task.id
          (MemStorage.createTask now2 i2
             (MemOps.run tz (ops1 ++ MemOps.CreateTask now1 i1 :: ops2))).1)
  ∧ (∀ (s1 s2 : InsertStudySession.t),
        StudySession.id
          (MemStorage.createStudySession now1 s1 (MemOps.run tz ops1)).1
        < StudySession.id
            (MemStorage.createStudySession now2 s2
               (MemOps.run tz
                  (ops1 ++ MemOps.CreateStudySession now1 s1 :: ops2))).1).
Proof.
  split.
  - intros i1 i2. unfold MemOps.run. rewrite foldl_app. simpl.
    set (st1 := foldl (MemOps.step tz) MemStorage.constructor ops1).
    pose proof (foldl_step_counters tz ops2
                  (MemStorage.createTask now1 i1 st1).2) as [H _].
    simpl in H. lia.
  - intros s1 s2. unfold MemOps.run. rewrite foldl_app. simpl.
    set (st1 := foldl (MemOps.step tz) MemStorage.constructor ops1).
    pose proof (foldl_step_counters tz ops2
                  (MemStorage.createStudySession now1 s1 st1).2) as [_ H].
    simpl in H. lia.
Qed.

(** ** Creating and deleting in [MemStorage] *)

Lemma withTasks_same (st : MemStorage.t) :
  MemStorage.withTasks st (MemStorage.tasksMap st) (MemStorage.taskId st) = st.
Proof. by destruct st. Qed.

Lemma withSessions_same (st : MemStorage.t) :
  MemStorage.withSessions st (MemStorage.studySessionsMap st)
                          (MemStorage.sessionId st) = st.
Proof. by destruct st. Qed.

(** X3. [createTask] on a storage reached by any calls gives the task an
    id no stored task has; the storage then holds the task under that id,
    holds every other task as before and lists one task more. The task has
    the supplied text, [completed = false] unless it was supplied, and the
    time of the call as [createdAt]. *)
Theorem createTask_adds_one (tz : Date.zone) (ops : list MemOps.op) (now : Z)
    (insertTask : InsertTask.t) :
  let st := MemOps.run tz ops in
  let task := (MemStorage.createTask now insertTask st).1 in
  let st' := (MemStorage.createTask now insertTask st).2 in
  MemStorage.getTask (Task.id task) st = None
  ∧ MemStorage.getTask (Task.id task) st' = Some task
  ∧ (∀ j, j ≠ Task.id task → MemStorage.getTask j st' = MemStorage.getTask j st)
  ∧ MemStorage.getTasks st' ≡ₚ task :: MemStorage.getTasks st
  ∧ Task.text task = InsertTask.text insertTask
  ∧ Task.completed task = default false (InsertTask.completed insertTask)
  ∧ Task.createdAt task = now.
Proof.
  intros st task st'. destruct (run_memIdsInv tz ops) as [Ht _].
  fold st in Ht.
  assert (Hfresh : JsMap.get (MemStorage.taskId st) (MemStorage.tasksMap st)
                   = None) by (eapply keyed_fresh; [exact Ht | lia]).
  split; [exact Hfresh |]. split; [apply jsmap_get_set_eq |].
  split; [intros j Hj; by apply jsmap_get_set_ne |].
  split; [| done].
  unfold MemStorage.getTasks, MemStorage.cmpCreatedAt. rewrite !jsSort_perm.
  subst st'. simpl. rewrite jsmap_set_absent by done.
  unfold JsMap.values. rewrite map_app. simpl.
  by rewrite <- Permutation_cons_append.
Qed.

(** X4. [deleteTask] on a storage reached by any calls returns [true]
    exactly when the id is stored; afterwards the id is not stored and
    every other task is as before; when it returns [false] the storage is
    as it was; and a second [deleteTask] of the same id returns [false]. *)
Theorem deleteTask_once (tz : Date.zone) (ops : list MemOps.op) (id : Z) :
  let st := MemOps.run tz ops in
  let found := (MemStorage.deleteTask id st).1 in
  let st' := (MemStorage.deleteTask id st).2 in
  (found = true ↔ is_Some (MemStorage.getTask id st))
  ∧ MemStorage.getTask id st' = None
  ∧ (∀ j, j ≠ id → MemStorage.getTask j st' = MemStorage.getTask j st)
  ∧ (found = false → st' = st)
  ∧ MemStorage.deleteTask id st' = (false, st').
Proof.
  intros st found st'. destruct (run_memIdsInv tz ops) as [[Hnd _] _].
  fold st in Hnd. subst found st'.
  unfold MemStorage.deleteTask, MemStorage.getTask, JsMap.delete. simpl.
  assert (Hgone : JsMap.get id (JsMap.remove id (MemStorage.tasksMap st))
                  = None) by by apply jsmap_get_remove_eq.
  split; [apply bool_decide_eq_true |]. split; [exact Hgone |].
  split; [intros j Hj; by apply jsmap_get_remove_ne |]. split.
  - rewrite bool_decide_eq_false, <- eq_None_not_Some. intros Hnone.
    rewrite (jsmap_remove_absent _ _ Hnone). apply withTasks_same.
  - rewrite Hgone, (jsmap_remove_absent _ _ Hgone).
    reflexivity.
Qed.

(** X5. [createStudySession] on a storage reached by any calls gives the
    session an id no stored session has; the storage then holds it under
    that id and every other session as before. The stored session has a
    [duration] and a [tags] array, never [null], a [timerType] that is not
    the empty string, and the supplied [startTime] or else the time of the
    call. *)
Theorem createStudySession_adds_one (tz : Date.zone) (ops : list MemOps.op)
    (now : Z) (session : InsertStudySession.t) :
  let st := MemOps.run tz ops in
  let created := (MemStorage.createStudySession now session st).1 in
  let st' := (MemStorage.createStudySession now session st).2 in
  MemStorage.getStudySession (StudySession.id created) st = None
  ∧ MemStorage.getStudySession (StudySession.id created) st' = Some created
  ∧ (∀ j, j ≠ StudySession.id created →
          MemStorage.getStudySession j st' = MemStorage.getStudySession j st)
  ∧ MemStorage.getStudySessions st' ≡ₚ created :: MemStorage.getStudySessions st
  ∧ is_Some (StudySession.duration created)
  ∧ is_Some (StudySession.tags created)
  ∧ StudySession.timerType created ≠ ""
  ∧ StudySession.startTime created
    = default now (InsertStudySession.startTime session).
Proof.
  intros st created st'. destruct (run_memIdsInv tz ops) as [_ Hs].
  fold st in Hs.
  assert (Hfresh : JsMap.get (MemStorage.sessionId st)
                             (MemStorage.studySessionsMap st) = None)
    by (eapply keyed_fresh; [exact Hs | lia]).
  split; [exact Hfresh |]. split; [apply jsmap_get_set_eq |].
  split; [intros j Hj; by apply jsmap_get_set_ne |].
  split; [| split; [by eexists | split; [by eexists | split; [| done]]]].
  - unfold MemStorage.getStudySessions, MemStorage.cmpStartTime.
    rewrite !jsSort_perm. subst st'. simpl.
    rewrite jsmap_set_absent by done.
    unfold JsMap.values. rewrite map_app. simpl.
    by rewrite <- Permutation_cons_append.
  - subst created. simpl.
    destruct (Js.truthyString (InsertStudySession.timerType session)) eqn:E;
      [by apply truthyString_true | done].
Qed.

(** X6. [deleteStudySession] on a storage reached by any calls returns
    [true] exactly when the id is stored; afterwards the id is not stored
    and every other session is as before; when it returns [false] the
    storage is as it was; and a second call returns [false]. *)
Theorem deleteStudySession_once (tz : Date.zone) (ops : list MemOps.op) (id : Z) :
  let st := MemOps.run tz ops in
  let found := (MemStorage.deleteStudySession id st).1 in
  let st' := (MemStorage.deleteStudySession id st).2 in
  (found = true ↔ is_Some (MemStorage.getStudySession id st))
  ∧ MemStorage.getStudySession id st' = None
  ∧ (∀ j, j ≠ id →
          MemStorage.getStudySession j st' = MemStorage.getStudySession j st)
  ∧ (found = false → st' = st)
  ∧ MemStorage.deleteStudySession id st' = (false, st').
Proof.
  intros st found st'. destruct (run_memIdsInv tz ops) as [_ [Hnd _]].
  fold st in Hnd. subst found st'.
  unfold MemStorage.deleteStudySession, MemStorage.getStudySession,
    JsMap.delete. simpl.
  assert (Hgone : JsMap.get id
                    (JsMap.remove id (MemStorage.studySessionsMap st))
                  = None) by by apply jsmap_get_remove_eq.
  split; [apply bool_decide_eq_true |]. split; [exact Hgone |].
  split; [intros j Hj; by apply jsmap_get_remove_ne |]. split.
  - rewrite bool_decide_eq_false, <- eq_None_not_Some. intros Hnone.
    rewrite (jsmap_remove_absent _ _ Hnone). apply withSessions_same.
  - rewrite Hgone, (jsmap_remove_absent _ _ Hgone).
    reflexivity.
Qed.

(** ** The listings *)

Lemma Forall_List_filter {A : Type} (Q : A → Prop) (P : A → bool)
    (l : list A) :
  Forall Q l → Forall Q (List.filter P l).
Proof.
  induction 1 as [| z l Hz Hall IH]; simpl; [done |].
  destruct (P z); [by constructor | done].
Qed.

Section SortMore.
Context {A : Type} (key : A → Z).

(** The sort is stable: records with the same key stay in their order. *)
Lemma sortInsert_same_key (k : Z) (x : A) (l : list A) :
  filter (λ a, key a = k) (sortInsert (keyDesc key) x l)
  = filter (λ a, key a = k) (x :: l).
Proof.
  induction l as [| y l IH]; simpl; [done |].
  destruct (Z.ltb_spec 0 (keyDesc key x y)) as [Hlt | Hge]; [| done].
  unfold keyDesc in Hlt.
  rewrite (filter_cons _ y), IH, !(filter_cons _ x), !(filter_cons _ y).
  repeat case_decide; (done || lia).
Qed.

Lemma jsSort_same_key (k : Z) (l : list A) :
  filter (λ a, key a = k) (jsSort (keyDesc key) l) = filter (λ a, key a = k) l.
Proof.
  induction l as [| x l IH]; simpl; [done |].
  by rewrite sortInsert_same_key, !(filter_cons _ x), IH.
Qed.

Lemma sortInsert_first (x : A) (l : list A) :
  Forall (λ y, key y ≤ key x) l → sortInsert (keyDesc key) x l = x :: l.
Proof.
  destruct 1 as [| y l Hy Hl]; simpl; [done |].
  destruct (Z.ltb_spec 0 (keyDesc key x y)) as [Hlt | Hge]; [| done].
  unfold keyDesc in Hlt. lia.
Qed.

Lemma filter_sortInsert (P : A → bool) (x : A) (l : list A) :
  StronglySorted (newestFirst key) l →
  List.filter P (sortInsert (keyDesc key) x l)
  = if P x then sortInsert (keyDesc key) x (List.filter P l)
    else List.filter P l.
Proof.
  induction 1 as [| y l Hl IH Hy]; simpl; [by destruct (P x) |].
  destruct (Z.ltb_spec 0 (keyDesc key x y)) as [Hlt | Hge]; simpl.
  - rewrite IH. destruct (P y), (P x); simpl; try done.
    destruct (Z.ltb_spec 0 (keyDesc key x y)); [done | lia].
  - destruct (P x); [| done]. symmetry. unfold keyDesc in Hge.
    apply sortInsert_first.
    apply (Forall_List_filter _ P (y :: l)).
    constructor; [lia |]. eapply Forall_impl; [exact Hy |].
    unfold newestFirst. simpl. intros; lia.
Qed.

(** Filtering the sorted list is sorting the filtered one. *)
Lemma filter_jsSort (P : A → bool) (l : list A) :
  List.filter P (jsSort (keyDesc key) l)
  = jsSort (keyDesc key) (List.filter P l).
Proof.
  induction l as [| x l IH]; simpl; [done |].
  rewrite filter_sortInsert by apply jsSort_sorted.
  rewrite IH. by destruct (P x).
Qed.

End SortMore.

(** X7. [getTasks] returns the stored tasks, each once per entry, newest
    first by [createdAt]; tasks with the same [createdAt] come in the order
    in which the map holds them. *)
Theorem getTasks_newest_first (st : MemStorage.t) :
  MemStorage.getTasks st ≡ₚ JsMap.values (MemStorage.tasksMap st)
  ∧ StronglySorted (newestFirst Task.createdAt) (MemStorage.getTasks st)
  ∧ ∀ t : Z,
      filter (λ task, Task.createdAt task = t) (MemStorage.getTasks st)
      = filter (λ task, Task.createdAt task = t)
               (JsMap.values (MemStorage.tasksMap st)).
Proof.
  unfold MemStorage.getTasks, MemStorage.cmpCreatedAt.
  split; [apply jsSort_perm |]. split; [apply jsSort_sorted |].
  intros t. apply jsSort_same_key.
Qed.

(** X8. [getStudySessions] returns the stored sessions, each once per
    entry, newest first by [startTime]; sessions with the same [startTime]
    come in the order in which the map holds them. *)
Theorem getStudySessions_newest_first (st : MemStorage.t) :
  MemStorage.getStudySessions st
  ≡ₚ JsMap.values (MemStorage.studySessionsMap st)
  ∧ StronglySorted (newestFirst StudySession.startTime)
                   (MemStorage.getStudySessions st)
  ∧ ∀ t : Z,
      filter (λ s, StudySession.startTime s = t)
             (MemStorage.getStudySessions st)
      = filter (λ s, StudySession.startTime s = t)
               (JsMap.values (MemStorage.studySessionsMap st)).
Proof.
  unfold MemStorage.getStudySessions, MemStorage.cmpStartTime.
  split; [apply jsSort_perm |]. split; [apply jsSort_sorted |].
  intros t. apply jsSort_same_key.
Qed.

(** X9. [getStudySessionsByDateRange(start, end)] is [getStudySessions]
    with the sessions outside [start ≤ startTime ≤ end] taken out: the
    same sessions in the same order. *)
Theorem dateRange_is_filtered_listing (startDate endDate : Z)
    (st : MemStorage.t) :
  MemStorage.getStudySessionsByDateRange startDate endDate st
  = filter (λ s, startDate ≤ StudySession.startTime s ≤ endDate)
           (MemStorage.getStudySessions st).
Proof.
  unfold MemStorage.getStudySessionsByDateRange, MemStorage.getStudySessions,
    MemStorage.cmpStartTime.
  by rewrite <- filter_inRange, filter_jsSort.
Qed.

(** ** Updates in [MemStorage] *)

(** X10. [updateStudySession] on an id that the session map does not hold
    returns [undefined] and leaves the storage as it was. On an id it
    holds, it returns the stored session with each supplied field
    overwritten and each other field, [id] included, as before; the map
    then holds the returned session under that id, the other ids keep
    their sessions, and the keys of the map are the same. *)
Theorem updateStudySession_merges_or_misses (id : Z)
    (sessionData : PartialStudySession.t) (st : MemStorage.t) :
  (MemStorage.getStudySession id st = None →
   MemStorage.updateStudySession id sessionData st = (None, st))
  ∧ (∀ session : StudySession.t,
        MemStorage.getStudySession id st = Some session →
        ∃ updated st',
          MemStorage.updateStudySession id sessionData st = (Some updated, st')
          ∧ MemStorage.getStudySession id st' = Some updated
          ∧ (∀ j, j ≠ id → MemStorage.getStudySession j st'
                           = MemStorage.getStudySession j st)
          ∧ map fst (MemStorage.studySessionsMap st')
            = map fst (MemStorage.studySessionsMap st)
          ∧ StudySession.id updated = StudySession.id session
          ∧ StudySession.userId updated
            = default (StudySession.userId session)
                      (PartialStudySession.userId sessionData)
          ∧ StudySession.startTime updated
            = default (StudySession.startTime session)
                      (PartialStudySession.startTime sessionData)
          ∧ StudySession.endTime updated
            = default (StudySession.endTime session)
                      (PartialStudySession.endTime sessionData)
          ∧ StudySession.duration updated
            = default (StudySession.duration session)
                      (PartialStudySession.duration sessionData)
          ∧ StudySession.timerType updated
            = default (StudySession.timerType session)
                      (PartialStudySession.timerType sessionData)
          ∧ StudySession.tags updated
            = default (StudySession.tags session)
                      (PartialStudySession.tags sessionData)
          ∧ StudySession.notes updated
            = default (StudySession.notes session)
                      (PartialStudySession.notes sessionData)
          ∧ StudySession.completed updated
            = default (StudySession.completed session)
                      (PartialStudySession.completed sessionData)).
Proof.
  unfold MemStorage.getStudySession, MemStorage.updateStudySession. split.
  - intros ->. reflexivity.
  - intros session Hget. rewrite Hget. eexists _, _. split; [reflexivity |].
    simpl. split; [apply jsmap_get_set_eq |].
    split; [intros j Hj; by apply jsmap_get_set_ne |].
    split; [apply jsmap_set_keys; eauto |].
    destruct sessionData as [[?|] [?|] [?|] [?|] [?|] [?|] [?|] [?|]];
      simpl; auto 20.
Qed.

Lemma updateStudySession_merges_or_misses_witness :
  MemStorage.updateStudySession 3 PartialStudySession.empty
                                MemStorage.constructor
  = (None, MemStorage.constructor).
Proof.
  apply (proj1 (updateStudySession_merges_or_misses 3
                  PartialStudySession.empty MemStorage.constructor)).
  reflexivity.
Defined.

Lemma spread_twice {A : Type} (a : A) (b : option A) :
  Js.spread (Js.spread a b) b = Js.spread a b.
Proof. by destruct b. Qed.

Lemma spreadKey_twice {A : Type} (a b : option A) :
  PartialTimerSettings.spreadKey (PartialTimerSettings.spreadKey a b) b
  = PartialTimerSettings.spreadKey a b.
Proof. by destruct b. Qed.

Lemma task_merge_twice (task : Task.t) (p : PartialTask.t) :
  PartialTask.merge (PartialTask.merge task p) p = PartialTask.merge task p.
Proof. unfold PartialTask.merge. simpl. by rewrite !spread_twice. Qed.

Lemma session_merge_twice (s : StudySession.t) (p : PartialStudySession.t) :
  PartialStudySession.merge (PartialStudySession.merge s p) p
  = PartialStudySession.merge s p.
Proof. unfold PartialStudySession.merge. simpl. by rewrite !spread_twice. Qed.

Lemma stats_merge_twice (s : StudyStats.t) (p : PartialStudyStats.t) :
  PartialStudyStats.merge (PartialStudyStats.merge s p) p
  = PartialStudyStats.merge s p.
Proof. unfold PartialStudyStats.merge. simpl. by rewrite !spread_twice. Qed.

Lemma settings_merge_twice (s : TimerSettings.t)
    (p : PartialTimerSettings.t) :
  PartialTimerSettings.merge (PartialTimerSettings.merge s p) p
  = PartialTimerSettings.merge s p.
Proof.
  unfold PartialTimerSettings.merge. simpl.
  by rewrite !spread_twice, !spreadKey_twice.
Qed.

(** X11. The four update methods are idempotent: a second call with the
    same fields returns what the first returned and leaves the storage as
    the first left it. *)
Theorem mem_updates_idempotent (st : MemStorage.t) :
  (∀ (id : Z) (updateData : PartialTask.t),
      MemStorage.updateTask id updateData
                            (MemStorage.updateTask id updateData st).2
      = MemStorage.updateTask id updateData st)
  ∧ (∀ (id : Z) (sessionData : PartialStudySession.t),
        MemStorage.updateStudySession id sessionData
          (MemStorage.updateStudySession id sessionData st).2
        = MemStorage.updateStudySession id sessionData st)
  ∧ (∀ settings : PartialTimerSettings.t,
        MemStorage.updateTimerSettings settings
          (MemStorage.updateTimerSettings settings st).2
        = MemStorage.updateTimerSettings settings st)
  ∧ (∀ stats : PartialStudyStats.t,
        MemStorage.updateStudyStats stats
          (MemStorage.updateStudyStats stats st).2
        = MemStorage.updateStudyStats stats st).
Proof.
  split; [| split; [| split]].
  - intros id p. unfold MemStorage.updateTask.
    destruct (JsMap.get id (MemStorage.tasksMap st)) as [task|] eqn:Hget;
      simpl; [| by rewrite Hget].
    by rewrite jsmap_get_set_eq, task_merge_twice, jsmap_set_set.
  - intros id p. unfold MemStorage.updateStudySession.
    destruct (JsMap.get id (MemStorage.studySessionsMap st)) as [s|] eqn:Hget;
      simpl; [| by rewrite Hget].
    by rewrite jsmap_get_set_eq, session_merge_twice, jsmap_set_set.
  - intros p. unfold MemStorage.updateTimerSettings.
    cbn [MemStorage.timerSettingsInstance MemStorage.withSettings snd].
    destruct (MemStorage.timerSettingsInstance st);
      by rewrite settings_merge_twice.
  - intros p. unfold MemStorage.updateStudyStats.
    cbn [MemStorage.studyStatsInstance MemStorage.withStats snd].
    destruct (MemStorage.studyStatsInstance st);
      by rewrite stats_merge_twice.
Qed.

(** ** Runs of [increaseStudyTime] on [MemStorage] *)

Section MemRuns.
Variable tz : Date.zone.

Lemma mem_run_cons (c : studyCall) (calls : list studyCall)
    (st : MemStorage.t) :
  let upd := creditedStats tz (atTime c) (seconds c) (category c) 1
                           (priorStats st) in
  MemRun.increaseAll tz (c :: calls) st
  = match MemRun.increaseAll tz calls (MemStorage.withStats st upd) with
    | Js.Thrown msg => Js.Thrown msg
    | Js.Returned (rs, st2) => Js.Returned (upd :: rs, st2)
    end.
Proof. simpl. by rewrite mem_increase_returns. Qed.

Lemma creditCategory_stored (stored : option (gmap string Js.value))
    (c : studyCall) (k : string) (n : Z) :
  storedSeconds (default ∅ stored) k n →
  storedSeconds (Aggregator.creditCategory stored (seconds c) (category c)) k
                (n + (if creditsTo k c then seconds c else 0)).
Proof.
  intros Hn. unfold Aggregator.creditCategory, creditsTo.
  destruct (category c) as [c'|]; [| by rewrite Z.add_0_r].
  destruct (Js.truthyString c') eqn:Htruthy;
    [| by rewrite andb_false_r, Z.add_0_r].
  rewrite andb_true_r.
  destruct (String.eqb_spec c' k) as [-> | Hne].
  - left. by rewrite lookup_insert_eq, (addTo_stored _ _ _ _ Hn).
  - rewrite Z.add_0_r. unfold storedSeconds.
    by rewrite lookup_insert_ne.
Qed.

Lemma mem_run_accumulates (calls : list studyCall) (st : MemStorage.t) :
  ∃ rs st',
    MemRun.increaseAll tz calls st = Js.Returned (rs, st')
    ∧ length rs = length calls
    ∧ StudyStats.totalStudyTime (priorStats st')
      = StudyStats.totalStudyTime (priorStats st) + totalSeconds calls
    ∧ ∀ (k : string) (n : Z),
        storedSeconds (StudyStats.categories (priorStats st)) k n →
        storedSeconds (StudyStats.categories (priorStats st')) k
                      (n + categorySeconds k calls).
Proof.
  revert st. induction calls as [| c calls IH]; intros st.
  - exists [], st. simpl. split; [done |]. split; [done |].
    split; [lia |]. intros k n Hn. unfold categorySeconds. simpl.
    by rewrite Z.add_0_r.
  - rewrite mem_run_cons. cbv zeta.
    set (upd := creditedStats tz (atTime c) (seconds c) (category c) 1
                              (priorStats st)).
    destruct (IH (MemStorage.withStats st upd))
      as (rs & st' & -> & Hlen & Htotal & Hcats).
    exists (upd :: rs), st'. split; [done |].
    split; [simpl; by rewrite Hlen |].
    change (priorStats (MemStorage.withStats st upd)) with upd in *.
    split.
    + rewrite Htotal. subst upd. simpl. lia.
    + intros k n Hn.
      replace (n + categorySeconds k (c :: calls))
        with (n + (if creditsTo k c then seconds c else 0)
              + categorySeconds k calls).
      * apply Hcats. apply (creditCategory_stored _ c k n Hn).
      * unfold categorySeconds. simpl. destruct (creditsTo k c); simpl; lia.
Qed.

Hypothesis regular : regularZone tz.

(** A run from a stored [lastStudyDate] in which no call skips a day. *)
Lemma mem_run_counts_from (calls : list studyCall) (st : MemStorage.t)
    (last : Z) :
  StudyStats.lastStudyDate (priorStats st) = Some last →
  noGap tz last calls →
  ∃ rs st',
    MemRun.increaseAll tz calls st = Js.Returned (rs, st')
    ∧ ∀ (i : nat) (r : StudyStats.t),
        rs !! i = Some r →
        StudyStats.streakDays r
        = StudyStats.streakDays (priorStats st)
          + daysEntered tz last (take (S i) calls).
Proof.
  revert st last. induction calls as [| c calls IH]; intros st last Hlast Hgap.
  - exists [], st. split; [done |]. intros i r Hr. by destruct i.
  - destruct Hgap as [Hday Hgap]. rewrite mem_run_cons. cbv zeta.
    set (upd := creditedStats tz (atTime c) (seconds c) (category c) 1
                              (priorStats st)).
    destruct (IH (MemStorage.withStats st upd) (atTime c) eq_refl Hgap)
      as (rs & st' & -> & Hall).
    exists (upd :: rs), st'. split; [done |].
    change (priorStats (MemStorage.withStats st upd)) with upd in Hall.
    assert (Hupd : StudyStats.streakDays upd
                   = StudyStats.streakDays (priorStats st)
                     + (if Aggregator.yesterday tz (atTime c)
                           =? Date.setHours0 tz last then 1 else 0)).
    { subst upd. simpl. rewrite Hlast.
      destruct Hday as [Hsame | Hnext]; unfold sameDay, dayAfter in *.
      - rewrite streakAfter_today; [| apply regular | symmetry; exact Hsame].
        pose proof (regular (atTime c)) as Hlt.
        unfold Aggregator.today in Hlt. rewrite Hsame in Hlt.
        destruct (Z.eqb_spec (Aggregator.yesterday tz (atTime c))
                             (Date.setHours0 tz last)); lia.
      - rewrite streakAfter_yesterday by done.
        by rewrite Hnext, Z.eqb_refl. }
    intros [| i] r Hr.
    + injection Hr as <-. rewrite Hupd.
      change (take 1 (c :: calls)) with [c]. cbn [daysEntered]. lia.
    + rewrite (Hall i r Hr), Hupd.
      change (take (S (S i)) (c :: calls)) with (c :: take (S i) calls).
      cbn [daysEntered]. lia.
Qed.

End MemRuns.

(** X12. After any sequence of [increaseStudyTime] calls on any
    [MemStorage], each with a number of seconds that is an integer from 0
    to 2^53 - 1, every call has returned. When the stored
    [totalStudyTime] is not negative and, with the seconds of all the calls
    added, not above 2^53 - 1, it has grown by the sum of the seconds of
    the calls. For a category name under which a number that is not
    negative was stored, or nothing was and the name reads [undefined],
    when that number (0 for nothing) with the seconds of the calls that
    named the category is not above 2^53 - 1, the time under the name has
    grown by the sum of the seconds of those calls (nothing for the empty
    name). *)
Theorem mem_time_is_sum_of_calls (tz : Date.zone) (calls : list studyCall)
    (st : MemStorage.t) :
  Forall (λ c, 0 ≤ seconds c ≤ 9007199254740991) calls →
  ∃ rs st',
    MemRun.increaseAll tz calls st = Js.Returned (rs, st')
    ∧ length rs = length calls
    ∧ (0 ≤ StudyStats.totalStudyTime (priorStats st) →
       StudyStats.totalStudyTime (priorStats st) + totalSeconds calls
       ≤ 9007199254740991 →
       StudyStats.totalStudyTime (priorStats st')
       = StudyStats.totalStudyTime (priorStats st) + totalSeconds calls)
    ∧ ∀ (k : string) (n : Z),
        storedSeconds (StudyStats.categories (priorStats st)) k n →
        0 ≤ n →
        n + categorySeconds k calls ≤ 9007199254740991 →
        storedSeconds (StudyStats.categories (priorStats st')) k
                      (n + categorySeconds k calls).
Proof.
  intros _.
  destruct (mem_run_accumulates tz calls st)
    as (rs & st' & Hrun & Hlen & Htotal & Hcats).
  exists rs, st'. split; [exact Hrun |]. split; [exact Hlen |].
  split; [intros _ _; exact Htotal |].
  intros k n Hn _ _. by apply Hcats.
Qed.

Lemma mem_time_is_sum_of_calls_witness :
  ∃ rs st',
    MemRun.increaseAll Date.utc
      [mkStudyCall 864000000 50 (Some "Math");
       mkStudyCall 864003600 30 (Some "Math");
       mkStudyCall 864007200 20 (Some "Physics")] MemStorage.constructor
    = Js.Returned (rs, st')
    ∧ StudyStats.totalStudyTime (priorStats st') = 100
    ∧ storedSeconds (StudyStats.categories (priorStats st')) "Math" 80.
Proof.
  destruct (mem_time_is_sum_of_calls Date.utc
              [mkStudyCall 864000000 50 (Some "Math");
               mkStudyCall 864003600 30 (Some "Math");
               mkStudyCall 864007200 20 (Some "Physics")]
              MemStorage.constructor)
    as (rs & st' & Hrun & _ & Htotal & Hcats).
  - repeat constructor; simpl; lia.
  - exists rs, st'. split; [exact Hrun |]. split.
    + apply Htotal; vm_compute; discriminate.
    + apply (Hcats "Math" 0).
      * right. repeat split; reflexivity.
      * lia.
      * vm_compute. discriminate.
Defined.

(** X13. In a regular zone, starting without a stored [lastStudyDate],
    when every call is on the calendar day of the call before it or on
    the day after, and the calls are fewer than 2^53, the first call
    returns a [streakDays] of 1 and each later call returns 1 plus the
    number of calls, from the second to this one, that were on the day
    after the call before them: the number of calendar days from the
    first call to this one, both counted. *)
Theorem mem_streak_counts_days (tz : Date.zone) (first : studyCall)
    (calls : list studyCall) (st : MemStorage.t) :
  regularZone tz →
  StudyStats.lastStudyDate (priorStats st) = None →
  noGap tz (atTime first) calls →
  Z.of_nat (length calls) < 9007199254740991 →
  ∃ r rs st',
    MemRun.increaseAll tz (first :: calls) st = Js.Returned (r :: rs, st')
    ∧ StudyStats.streakDays r = 1
    ∧ length rs = length calls
    ∧ ∀ (i : nat) (r' : StudyStats.t),
        rs !! i = Some r' →
        StudyStats.streakDays r'
        = 1 + daysEntered tz (atTime first) (take (S i) calls).
Proof.
  intros Hreg Hnone Hgap _. rewrite mem_run_cons. cbv zeta.
  set (upd := creditedStats tz (atTime first) (seconds first)
                            (category first) 1 (priorStats st)).
  destruct (mem_run_counts_from tz Hreg calls (MemStorage.withStats st upd)
              (atTime first) eq_refl Hgap) as (rs & st' & Hrun & Hall).
  destruct (mem_run_accumulates tz calls (MemStorage.withStats st upd))
    as (rs2 & st2 & Hrun2 & Hlen & _).
  rewrite Hrun in Hrun2. injection Hrun2 as <- <-. rewrite Hrun.
  exists upd, rs, st'. split; [done |].
  change (priorStats (MemStorage.withStats st upd)) with upd in Hall.
  assert (Hupd : StudyStats.streakDays upd = 1)
    by (subst upd; simpl; by rewrite Hnone).
  split; [exact Hupd |]. split; [exact Hlen |].
  intros i r' Hr. rewrite (Hall i r' Hr), Hupd. reflexivity.
Qed.

Lemma mem_streak_counts_days_witness :
  ∃ r1 r2 r3 r4 st',
    MemRun.increaseAll Date.utc
      [mkStudyCall 864000000 60 None; mkStudyCall 864003600 60 None;
       mkStudyCall 950400000 60 (Some "Math");
       mkStudyCall 1036800000 60 None] MemStorage.constructor
    = Js.Returned ([r1; r2; r3; r4], st')
    ∧ StudyStats.streakDays r1 = 1
    ∧ StudyStats.streakDays r2 = 1
    ∧ StudyStats.streakDays r3 = 2
    ∧ StudyStats.streakDays r4 = 3.
Proof.
  destruct (mem_streak_counts_days Date.utc (mkStudyCall 864000000 60 None)
              [mkStudyCall 864003600 60 None;
               mkStudyCall 950400000 60 (Some "Math");
               mkStudyCall 1036800000 60 None] MemStorage.constructor)
    as (r & rs & st' & Hrun & Hfirst & Hlen & Hall).
  - apply fixedOffset_regular.
  - reflexivity.
  - simpl. repeat split; (by left) || (by right).
  - simpl. lia.
  - destruct rs as [| r2 [| r3 [| r4 [| r5 rs]]]]; try discriminate Hlen.
    exists r, r2, r3, r4, st'. split; [exact Hrun |].
    split; [exact Hfirst |].
    split; [exact (Hall 0%nat r2 eq_refl) |].
    split; [exact (Hall 1%nat r3 eq_refl) | exact (Hall 2%nat r4 eq_refl)].
Defined.

(** ** Runs of [increaseStudyTime] on both stores *)

Section BothRuns.
Variable tz : Date.zone.

(** A table with the one row of the implicit user. *)
Lemma db_single_row_step (now secs : Z) (cat : option string)
    (r : StudyStats.t) (serial : Z) :
  StudyStats.userId r = None →
  creditFits secs r →
  DbStorage.increaseStudyTime tz now secs cat (DbStorage.mk [r] serial)
  = Js.Returned
      (Some (creditedStats tz now secs cat (StudyStats.streakDays r) r),
       DbStorage.mk
         [creditedStats tz now secs cat (StudyStats.streakDays r) r] serial).
Proof.
  intros Hu Hfits.
  assert (Hget : DbStorage.getStudyStats (DbStorage.mk [r] serial) = Some r).
  { unfold DbStorage.getStudyStats, DbStorage.isNullUser. simpl.
    by rewrite Hu. }
  destruct (creditFits_int4 tz now secs cat r Hfits) as [Htotal Hstreak].
  destruct (db_increase_update tz now secs cat (DbStorage.mk [r] serial) r
              Hget ltac:(unfold uniqueIds; simpl; apply NoDup_singleton)
              Htotal Hstreak) as (l1 & l2 & Hrows & _ & ->).
  simpl in Hrows.
  destruct l1 as [| x l1]; [| by destruct l1].
  by injection Hrows as <-.
Qed.

(** The bounds that keep a run within [int4]: no call takes seconds away,
    the total with the seconds of all the calls is an [int4], and so is
    the streak with one day for every call. *)
Lemma runs_agree_from (calls : list studyCall) (st : MemStorage.t)
    (r : StudyStats.t) (serial : Z) :
  MemStorage.getStudyStats st = Some r →
  StudyStats.userId r = None →
  is_Some (StudyStats.lastStudyDate r) →
  Forall (λ c, 0 ≤ seconds c) calls →
  0 ≤ StudyStats.totalStudyTime r →
  StudyStats.totalStudyTime r + totalSeconds calls ≤ 2147483647 →
  1 ≤ StudyStats.streakDays r →
  StudyStats.streakDays r + Z.of_nat (length calls) ≤ 2147483647 →
  ∃ rs st' r',
    MemRun.increaseAll tz calls st = Js.Returned (rs, st')
    ∧ DbRun.increaseAll tz calls (DbStorage.mk [r] serial)
      = Js.Returned (Some <$> rs, DbStorage.mk [r'] serial)
    ∧ MemStorage.getStudyStats st' = Some r'.
Proof.
  revert st r.
  induction calls as [| c calls IH];
    intros st r Hget Hu Hlast Hsecs Htotal0 Htotal Hstreak1 Hstreak.
  - exists [], st, r. by simpl.
  - apply Forall_cons in Hsecs as [Hc Hsecs].
    assert (Hcalls : 0 ≤ totalSeconds calls).
    { clear -Hsecs. induction Hsecs as [| c' l Hc' _ IHl]; simpl; lia. }
    simpl in Htotal. rewrite length_cons, Nat2Z.inj_succ in Hstreak.
    assert (Hfits : creditFits (seconds c) r).
    { unfold creditFits, int4Row, Js.int4.
      repeat split; apply andb_true_intro; split; lia. }
    rewrite mem_run_cons. cbv zeta. cbn [DbRun.increaseAll].
    rewrite db_single_row_step by done.
    assert (Hprior : priorStats st = r).
    { unfold priorStats. unfold MemStorage.getStudyStats in Hget.
      by rewrite Hget. }
    rewrite Hprior.
    assert (Hsame : creditedStats tz (atTime c) (seconds c) (category c)
                                  (StudyStats.streakDays r) r
                    = creditedStats tz (atTime c) (seconds c) (category c)
                                    1 r).
    { destruct Hlast as [last Hlast]. unfold creditedStats.
      by rewrite Hlast. }
    rewrite Hsame.
    set (upd := creditedStats tz (atTime c) (seconds c) (category c) 1 r).
    assert (Hupd : 1 ≤ StudyStats.streakDays upd
                   ≤ StudyStats.streakDays r + 1).
    { subst upd. simpl. destruct (StudyStats.lastStudyDate r) as [last|];
        [| lia].
      destruct (streakAfter_cases tz (atTime c) last (StudyStats.streakDays r))
        as [-> | [-> | ->]]; lia. }
    destruct (IH (MemStorage.withStats st upd) upd eq_refl Hu
                 (mk_is_Some _ _ eq_refl) Hsecs)
      as (rs & st' & r' & -> & -> & Hget');
      [change (StudyStats.totalStudyTime upd)
         with (StudyStats.totalStudyTime r + seconds c); lia .. |].
    by exists (upd :: rs), st', r'.
Qed.

End BothRuns.

(** X14. On a new [MemStorage] and on a [DbStorage] over an empty table
    whose [serial] starts at 1, a sequence of [increaseStudyTime] calls
    returns the same records, call by call, when the calls stay within
    the [integer] columns and the plain category names: no call has
    negative seconds, the seconds of all the calls together are at most
    2^31 - 1, so are the calls in number, and no category is the name of
    a member of [Object.prototype]. After at least one call the table has
    exactly one row, the record that [MemStorage] holds. *)
Theorem stores_agree_on_runs (tz : Date.zone) (calls : list studyCall) :
  Forall (λ c, 0 ≤ seconds c ∧ plainCategory (category c)) calls →
  totalSeconds calls ≤ 2147483647 →
  Z.of_nat (length calls) ≤ 2147483647 →
  ∃ rs st db,
    MemRun.increaseAll tz calls MemStorage.constructor = Js.Returned (rs, st)
    ∧ DbRun.increaseAll tz calls DbStorage.emptyDb
      = Js.Returned (Some <$> rs, db)
    ∧ (calls ≠ [] →
       ∃ r, DbStorage.studyStats db = [r]
            ∧ MemStorage.getStudyStats st = Some r).
Proof.
  intros Hcalls Htotal Hlen.
  destruct calls as [| c calls].
  - exists [], MemStorage.constructor, DbStorage.emptyDb. by simpl.
  - apply Forall_cons in Hcalls as [[Hc Hplain] Hcalls].
    assert (Hsecs : Forall (λ c, 0 ≤ seconds c) calls).
    { eapply Forall_impl; [exact Hcalls |]. by intros c' [H _]. }
    assert (Hrest : 0 ≤ totalSeconds calls).
    { clear -Hsecs. induction Hsecs as [| c' l Hc' _ IHl]; simpl; lia. }
    simpl in Htotal. rewrite length_cons, Nat2Z.inj_succ in Hlen.
    rewrite mem_run_cons. cbv zeta. cbn [DbRun.increaseAll].
    change (priorStats MemStorage.constructor) with MemStorage.defaultStats.
    rewrite first_record_eq by exact Hplain.
    destruct (db_increase_insert tz (atTime c) (seconds c) (category c)
                DbStorage.emptyDb eq_refl eq_refl (not_elem_of_nil _))
      as [-> _].
    { unfold Js.int4. apply andb_true_intro. split; lia. }
    simpl app.
    set (row := StudyStats.mk _ _ _ _ _ _ _ _).
    destruct (runs_agree_from tz calls
                (MemStorage.withStats MemStorage.constructor row) row
                (DbStorage.studyStatsSerial DbStorage.emptyDb + 1)
                eq_refl eq_refl (mk_is_Some _ _ eq_refl) Hsecs)
      as (rs & st' & r' & -> & -> & Hget'); [subst row; simpl; lia .. |].
    exists (row :: rs), st', (DbStorage.mk [r'] (1 + 1)).
    split; [done |]. split; [done |]. intros _. by exists r'.
Qed.

Lemma stores_agree_on_runs_witness :
  ∃ rs st db r,
    MemRun.increaseAll Date.utc [mkStudyCall 864000000 50 (Some "Math")]
                       MemStorage.constructor = Js.Returned (rs, st)
    ∧ DbRun.increaseAll Date.utc [mkStudyCall 864000000 50 (Some "Math")]
                        DbStorage.emptyDb = Js.Returned (Some <$> rs, db)
    ∧ DbStorage.studyStats db = [r]
    ∧ MemStorage.getStudyStats st = Some r.
Proof.
  destruct (stores_agree_on_runs Date.utc
              [mkStudyCall 864000000 50 (Some "Math")])
    as (rs & st & db & Hmem & Hdb & Hrow).
  - repeat constructor; [simpl; lia |]. by intros c [= <-].
  - simpl. lia.
  - simpl. lia.
  - destruct (Hrow ltac:(discriminate)) as (r & Hr & Hget).
    by exists rs, st, db, r.
Defined.

(** ** The table of [DbStorage] *)

Lemma filter_null_length (l1 l2 : list StudyStats.t) (cur upd : StudyStats.t) :
  DbStorage.isNullUser upd = DbStorage.isNullUser cur →
  length (List.filter DbStorage.isNullUser (l1 ++ upd :: l2))
  = length (List.filter DbStorage.isNullUser (l1 ++ cur :: l2)).
Proof.
  intros H. rewrite !List.filter_app, !length_app. simpl. rewrite H.
  by destruct (DbStorage.isNullUser cur).
Qed.

(** X15. On a table whose ids are distinct and below the next value of
    the [serial], itself an [int4], with at most one row of the implicit
    user, [DbStorage.increaseStudyTime] returns a row when the seconds, an
    integer, fit the columns: with no row of the implicit user the seconds
    are an [int4]; with one, its total and streak are [int4] values and
    so are the total with the seconds added and the streak plus 1. It
    leaves such a table: it holds the returned row as the one row of the
    implicit user, every other row is still there, and the table has one
    row more when there was no row of the implicit user and as many as
    before otherwise. *)
Theorem db_increase_keeps_table (tz : Date.zone) (now secs : Z)
    (cat : option string) (db : DbStorage.t) :
  uniqueIds db →
  Forall (λ i, i < DbStorage.studyStatsSerial db)
         (map StudyStats.id (DbStorage.studyStats db)) →
  oneImplicitUser db →
  Js.int4 (DbStorage.studyStatsSerial db) = true →
  match DbStorage.getStudyStats db with
  | Some cur => creditFits secs cur
  | None => Js.int4 secs = true
  end →
  ∃ r db',
    DbStorage.increaseStudyTime tz now secs cat db = Js.Returned (Some r, db')
    ∧ DbStorage.getStudyStats db' = Some r
    ∧ uniqueIds db'
    ∧ Forall (λ i, i < DbStorage.studyStatsSerial db')
             (map StudyStats.id (DbStorage.studyStats db'))
    ∧ oneImplicitUser db'
    ∧ (∀ row, row ∈ DbStorage.studyStats db →
              DbStorage.getStudyStats db ≠ Some row →
              row ∈ DbStorage.studyStats db')
    ∧ length (DbStorage.studyStats db')
      = (length (DbStorage.studyStats db)
         + match DbStorage.getStudyStats db with
           | Some _ => 0
           | None => 1
           end)%nat.
Proof.
  intros Hids Hfresh Hone Hserial Hfits.
  destruct (DbStorage.getStudyStats db) as [cur|] eqn:Hget.
  - destruct (creditFits_int4 tz now secs cat cur Hfits) as [Htotal Hstreak].
    destruct (db_increase_update tz now secs cat db cur Hget Hids
                Htotal Hstreak) as (l1 & l2 & Hrows & Hl1 & Hrun).
    assert (Hcur : DbStorage.isNullUser cur = true).
    { unfold DbStorage.getStudyStats in Hget. rewrite Hrows in Hget.
      rewrite List.filter_app, Hl1 in Hget. simpl in Hget.
      destruct (DbStorage.isNullUser cur) eqn:Hc; [done |].
      destruct (db_first_null_split _ _ Hget) as (l3 & l4 & Heq & _ & Hc').
      congruence. }
    eexists _, _. split; [exact Hrun |].
    split; [by apply db_first_null_found |].
    unfold uniqueIds, oneImplicitUser in *. rewrite Hrows in *. simpl.
    rewrite !map_app in *. simpl.
    split; [exact Hids |]. split; [exact Hfresh |].
    split; [by rewrite (filter_null_length l1 l2 cur) |]. split.
    + intros row Hin Hne.
      rewrite elem_of_app, elem_of_cons in Hin.
      rewrite elem_of_app, elem_of_cons.
      destruct Hin as [Hin | [-> | Hin]]; [by left | done | by right; right].
    + rewrite !length_app. simpl. lia.
  - assert (Hnew : DbStorage.studyStatsSerial db
                   ∉ map StudyStats.id (DbStorage.studyStats db)).
    { intros Hin. rewrite Forall_forall in Hfresh.
      specialize (Hfresh _ Hin). lia. }
    destruct (db_increase_insert tz now secs cat db Hget Hserial Hnew Hfits)
      as [Hrun Hget'].
    eexists _, _. split; [exact Hrun |]. split; [exact Hget' |].
    unfold uniqueIds, oneImplicitUser. simpl. rewrite map_app. simpl.
    split; [| split; [| split; [| split]]].
    + apply NoDup_app. split; [exact Hids |].
      split; [| apply NoDup_singleton].
      intros i Hi. rewrite list_elem_of_singleton. intros ->. done.
    + apply Forall_app. split.
      * eapply Forall_impl; [exact Hfresh |]. simpl. intros; lia.
      * apply Forall_singleton. lia.
    + rewrite List.filter_app, length_app.
      rewrite (db_first_null_none _ Hget). simpl. lia.
    + intros row Hin _. apply elem_of_app. by left.
    + rewrite length_app. simpl. lia.
Qed.

Lemma db_increase_keeps_table_witness :
  ∃ r db',
    DbStorage.increaseStudyTime Date.utc 864000000 100 None
      (DbStorage.mk [StudyStats.mk 4 (Some 9) 10 7200 36000 3 None None] 5)
    = Js.Returned (Some r, db')
    ∧ DbStorage.getStudyStats db' = Some r
    ∧ length (DbStorage.studyStats db') = 2%nat.
Proof.
  destruct (db_increase_keeps_table Date.utc 864000000 100 None
              (DbStorage.mk [StudyStats.mk 4 (Some 9) 10 7200 36000 3
                                           None None] 5))
    as (r & db' & Hrun & Hget & _ & _ & _ & _ & Hlen).
  - unfold uniqueIds. simpl. apply NoDup_singleton.
  - simpl. apply Forall_singleton. lia.
  - unfold oneImplicitUser. simpl. lia.
  - reflexivity.
  - reflexivity.
  - by exists r, db'.
Defined.

(** ** The handler that clears the completed tasks *)

Lemma filter_ext_in {A : Type} (P Q : A → Prop) `{!∀ x, Decision (P x)}
    `{!∀ x, Decision (Q x)} (l : list A) :
  (∀ x, x ∈ l → (P x ↔ Q x)) → filter P l = filter Q l.
Proof.
  induction l as [| x l IH]; intros Hext; [done |].
  rewrite !filter_cons, IH by (intros y Hy; apply Hext; by right).
  assert (P x ↔ Q x) by (apply Hext; by left).
  repeat case_decide; (done || tauto).
Qed.

Lemma filter_snd {V : Type} (P : V → Prop) `{!∀ x, Decision (P x)}
    (m : list (Z * V)) :
  map snd (filter (λ kv, P kv.2) m) = filter P (map snd m).
Proof.
  induction m as [| [k v] m IH]; [done |].
  rewrite filter_cons. simpl. rewrite filter_cons, <- IH.
  by case_decide.
Qed.

Lemma jsmap_get_filter {V : Type} (P : V → Prop) `{!∀ x, Decision (P x)}
    (m : list (Z * V)) (k : Z) :
  NoDup (map fst m) →
  JsMap.get k (filter (λ kv, P kv.2) m)
  = match JsMap.get k m with
    | Some v => if decide (P v) then Some v else None
    | None => None
    end.
Proof.
  induction m as [| [k' v'] m IH]; intros Hnd; [done |].
  simpl in Hnd. apply NoDup_cons in Hnd as [Hk' Hnd].
  rewrite filter_cons. simpl.
  destruct (Z.eqb_spec k k') as [-> | Hne].
  - case_decide; simpl; [by rewrite Z.eqb_refl |].
    rewrite (IH Hnd). by apply jsmap_get_None in Hk' as ->.
  - case_decide; simpl; [| by apply IH].
    destruct (Z.eqb_spec k k'); [done | by apply IH].
Qed.

Lemma filter_not_completed (l : list Task.t) :
  filter (λ task, Task.completed task = false) l
  = List.filter (λ task, negb (Task.completed task)) l.
Proof.
  induction l as [| task l IH]; [done |].
  rewrite filter_cons. simpl. rewrite IH.
  destruct (Task.completed task); by case_decide.
Qed.

Lemma foldl_remove_filter {V : Type} (ks : list Z) (m : list (Z * V)) :
  NoDup (map fst m) →
  foldl (λ m k, JsMap.remove k m) m ks = filter (λ kv, kv.1 ∉ ks) m.
Proof.
  revert m. induction ks as [| k ks IH]; intros m Hnd; simpl.
  - symmetry. apply filter_all, Forall_forall. intros kv _.
    apply not_elem_of_nil.
  - rewrite IH by by apply jsmap_remove_NoDup.
    rewrite jsmap_remove_filter by done.
    rewrite list_filter_filter. apply list_filter_iff.
    intros [j v]. simpl. rewrite not_elem_of_cons. tauto.
Qed.

Lemma foldl_deleteTask_map (tasks : list Task.t) (st : MemStorage.t) :
  MemStorage.tasksMap
    (foldl (λ st task, (MemStorage.deleteTask (Task.id task) st).2) st tasks)
  = foldl (λ m k, JsMap.remove k m) (MemStorage.tasksMap st)
          (map Task.id tasks).
Proof.
  revert st. induction tasks as [| task tasks IH]; intros st; simpl; [done |].
  by rewrite IH.
Qed.

(** X17. When the handler runs on a storage reached by any calls, it
    answers 204 and leaves exactly the tasks that were not completed: each
    of them under its id as before, in the same order in the map and in
    [getTasks], and no completed task. *)
Theorem deleteCompleted_keeps_open_tasks (tz : Date.zone)
    (ops : list MemOps.op) :
  let st := MemOps.run tz ops in
  let st' := (TaskRoutes.deleteCompleted st).2 in
  (TaskRoutes.deleteCompleted st).1 = TaskRoutes.Status204
  ∧ MemStorage.tasksMap st'
    = filter (λ kv, Task.completed kv.2 = false) (MemStorage.tasksMap st)
  ∧ (∀ id, MemStorage.getTask id st'
           = match MemStorage.getTask id st with
             | Some task => if Task.completed task then None else Some task
             | None => None
             end)
  ∧ MemStorage.getTasks st'
    = filter (λ task, Task.completed task = false) (MemStorage.getTasks st).
Proof.
  intros st st'. destruct (run_memIdsInv tz ops) as [Ht _]. fold st in Ht.
  pose proof Ht as [Hnd Hall].
  assert (Hmap : MemStorage.tasksMap st'
                 = filter (λ kv, Task.completed kv.2 = false)
                          (MemStorage.tasksMap st)).
  { subst st'. unfold TaskRoutes.deleteCompleted. simpl.
    rewrite foldl_deleteTask_map, foldl_remove_filter by done.
    apply filter_ext_in. intros [k task] Hin. simpl.
    assert (Hid : Task.id task = k).
    { rewrite Forall_forall in Hall. by destruct (Hall _ Hin). }
    rewrite list_elem_of_fmap. split.
    - intros Hnot. destruct (Task.completed task) eqn:Hc; [| done].
      exfalso. apply Hnot. exists task. split; [done |].
      apply list_elem_of_In, filter_In. split; [| done].
      apply list_elem_of_In.
      unfold MemStorage.getTasks, MemStorage.cmpCreatedAt.
      rewrite jsSort_perm. apply list_elem_of_fmap. by exists (k, task).
    - intros Hc (task' & Hk & Hin').
      apply list_elem_of_In, filter_In in Hin' as [Hin' Hc'].
      apply list_elem_of_In in Hin'.
      unfold MemStorage.getTasks, MemStorage.cmpCreatedAt in Hin'.
      rewrite jsSort_perm in Hin'.
      apply list_elem_of_fmap in Hin' as ([k' t'] & -> & Hin').
      simpl in *.
      assert (Task.id t' = k').
      { rewrite Forall_forall in Hall. by destruct (Hall _ Hin'). }
      assert (k' = k) by congruence. subst k'.
      apply (jsmap_get_Some _ _ _ Hnd) in Hin, Hin'.
      congruence. }
  split; [done |]. split; [exact Hmap |]. split.
  - intros id. unfold MemStorage.getTask.
    pose proof (jsmap_get_filter (λ task, Task.completed task = false)
                  (MemStorage.tasksMap st) id Hnd) as Hget.
    cbv beta in Hget. rewrite Hmap, Hget.
    destruct (JsMap.get id (MemStorage.tasksMap st)) as [task|]; [| done].
    destruct (Task.completed task); by case_decide.
  - unfold MemStorage.getTasks, MemStorage.cmpCreatedAt, JsMap.values.
    pose proof (filter_snd (λ task, Task.completed task = false)
                  (MemStorage.tasksMap st)) as Hsnd.
    cbv beta in Hsnd. rewrite Hmap, Hsnd.
    by rewrite !filter_not_completed, filter_jsSort.
Qed.

(** ** The users of [MemStorage] *)

Lemma find_snoc {A : Type} (f : A → bool) (l : list A) (x : A) :
  List.find f (l ++ [x])
  = match List.find f l with
    | Some y => Some y
    | None => if f x then Some x else None
    end.
Proof.
  induction l as [| y l IH]; simpl; [done |]. by destruct (f y).
Qed.

Lemma users_run_keyed (inserts : list InsertUser.t) :
  keyed User.id (MemUsers.userId (MemUsers.run inserts))
        (MemUsers.users (MemUsers.run inserts)).
Proof.
  unfold MemUsers.run.
  assert (Hgen : ∀ st, keyed User.id (MemUsers.userId st) (MemUsers.users st) →
            keyed User.id
              (MemUsers.userId
                 (foldl (λ st i, (MemUsers.createUser i st).2) st inserts))
              (MemUsers.users
                 (foldl (λ st i, (MemUsers.createUser i st).2) st inserts))).
  { induction inserts as [| i inserts IH]; intros st Hst; simpl; [done |].
    apply IH. simpl. by apply keyed_set_fresh. }
  apply Hgen. split; simpl; constructor.
Qed.

(** X18. [createUser] on a storage reached by any calls of [createUser]
    gives the user an id no stored user has; the storage then holds the
    user under that id and every other user as before. It accepts a
    username that is already stored: [getUserByUsername] keeps returning
    the user it returned before, and returns the new user only for a
    username no stored user had. *)
Theorem createUser_adds_one (inserts : list InsertUser.t)
    (insertUser : InsertUser.t) :
  let st := MemUsers.run inserts in
  let user := (MemUsers.createUser insertUser st).1 in
  let st' := (MemUsers.createUser insertUser st).2 in
  MemUsers.getUser (User.id user) st = None
  ∧ MemUsers.getUser (User.id user) st' = Some user
  ∧ (∀ j, j ≠ User.id user → MemUsers.getUser j st' = MemUsers.getUser j st)
  ∧ User.username user = InsertUser.username insertUser
  ∧ User.password user = InsertUser.password insertUser
  ∧ ∀ name : string,
      MemUsers.getUserByUsername name st'
      = match MemUsers.getUserByUsername name st with
        | Some earlier => Some earlier
        | None =>
            if String.eqb (InsertUser.username insertUser) name
            then Some user else None
        end.
Proof.
  intros st user st'. pose proof (users_run_keyed inserts) as Hk.
  fold st in Hk.
  assert (Hfresh : JsMap.get (MemUsers.userId st) (MemUsers.users st) = None)
    by (eapply keyed_fresh; [exact Hk | lia]).
  split; [exact Hfresh |]. split; [apply jsmap_get_set_eq |].
  split; [intros j Hj; by apply jsmap_get_set_ne |].
  split; [done |]. split; [done |].
  intros name. subst st'. unfold MemUsers.getUserByUsername. simpl.
  rewrite jsmap_set_absent by done.
  unfold JsMap.values. rewrite map_app. simpl map at 2.
  rewrite find_snoc. reflexivity.
Qed.

(** ** More on the route [PUT /api/study-sessions/:id] *)

(** X19. The handler answers 400 when the id is not a number; with an id
    that is a number, 400 with the message of the validation error when
    the body does not parse; and 404 when the body parses and no session
    has the id. In these three cases it leaves the storage as it was and
    makes no call of [increaseStudyTime]. In every other case it answers
    200, never 500, with the updated session, which the storage then holds
    under the id. *)
Theorem put_study_session_responses (tz : Date.zone) (now : Z) (id : option Z)
    (parsed : string + PartialStudySession.t) (storage : MemStorage.t) :
  let out := Routes.putStudySessionRequest tz now id parsed storage in
  (id = None →
   out = (Routes.Status400 "Invalid session ID", storage, []))
  ∧ (∀ i message, id = Some i → parsed = inl message →
       out = (Routes.Status400 message, storage, []))
  ∧ (∀ i data, id = Some i → parsed = inr data →
       MemStorage.getStudySession i storage = None →
       out = (Routes.Status404 "Study session not found", storage, []))
  ∧ (∀ i data old, id = Some i → parsed = inr data →
       MemStorage.getStudySession i storage = Some old →
       out.1.1 = Routes.Status200 (PartialStudySession.merge old data)
       ∧ MemStorage.getStudySession i out.1.2
         = Some (PartialStudySession.merge old data)).
Proof.
  intros out. subst out.
  unfold Routes.putStudySessionRequest, Routes.putStudySession.
  split; [by intros -> |]. split; [by intros i message -> -> |]. split.
  - intros i data -> -> Hget. unfold MemStorage.updateStudySession.
    unfold MemStorage.getStudySession in Hget. by rewrite Hget.
  - intros i data old -> -> Hget. unfold MemStorage.updateStudySession.
    unfold MemStorage.getStudySession in *. rewrite Hget.
    destruct (Routes.creditDue (PartialStudySession.merge old data)).
    + rewrite mem_increase_returns. simpl. split; [done |].
      apply jsmap_get_set_eq.
    + simpl. split; [done |]. apply jsmap_get_set_eq.
Qed.

Lemma put_study_session_responses_witness :
  Routes.putStudySessionRequest Date.utc 5 (Some 1)
    (inl "Expected number, received string at duration")
    MemStorage.constructor
  = (Routes.Status400 "Expected number, received string at duration",
     MemStorage.constructor, []).
Proof.
  apply (proj1 (proj2 (put_study_session_responses Date.utc 5 (Some 1)
                  (inl "Expected number, received string at duration")
                  MemStorage.constructor)) 1); reflexivity.
Defined.

(** ** What each method leaves alone *)

(** X20. A task method leaves the sessions, the timer settings and the
    study stats as they were; a session method leaves the tasks and both
    singletons; [updateTimerSettings] leaves the tasks, the sessions and
    the study stats; [updateStudyStats] and [increaseStudyTime] leave the
    tasks, the sessions and the timer settings. *)
Theorem mem_methods_frame (tz : Date.zone) (st : MemStorage.t)
    (o : MemOps.op) :
  let st' := MemOps.step tz st o in
  let tasksSame :=
    MemStorage.tasksMap st' = MemStorage.tasksMap st
    ∧ MemStorage.taskId st' = MemStorage.taskId st in
  let sessionsSame :=
    MemStorage.studySessionsMap st' = MemStorage.studySessionsMap st
    ∧ MemStorage.sessionId st' = MemStorage.sessionId st in
  let settingsSame :=
    MemStorage.timerSettingsInstance st' = MemStorage.timerSettingsInstance st in
  let statsSame :=
    MemStorage.studyStatsInstance st' = MemStorage.studyStatsInstance st in
  match o with
  | MemOps.CreateTask _ _ | MemOps.UpdateTask _ _ | MemOps.DeleteTask _ =>
      sessionsSame ∧ settingsSame ∧ statsSame
  | MemOps.CreateStudySession _ _ | MemOps.UpdateStudySession _ _
  | MemOps.DeleteStudySession _ =>
      tasksSame ∧ settingsSame ∧ statsSame
  | MemOps.UpdateTimerSettings _ => tasksSame ∧ sessionsSame ∧ statsSame
  | MemOps.UpdateStudyStats _ | MemOps.IncreaseStudyTime _ _ _ =>
      tasksSame ∧ sessionsSame ∧ settingsSame
  end.
Proof.
  destruct o; simpl; try done.
  - unfold MemStorage.updateTask. by destruct (JsMap.get _ _).
  - unfold MemStorage.updateStudySession. by destruct (JsMap.get _ _).
  - by rewrite mem_increase_returns.
Qed.
